(** * KabuTech recommendation engine: the rule engine of
    [kabutech_infer_recommend.py], embedded and verified.

    The engine maps a predicted class, a classifier confidence and a sparse
    environment snapshot to a severity, a list of alerts and a list of
    actions.  Numbers are Python floats (the confidence is annotated
    [float], and [main] and [get_env_manual] build every number with
    [float(...)]), that is IEEE binary64: they are modelled by Rocq's
    primitive floats, whose comparisons are the IEEE ones (every comparison
    with NaN is false).  Dictionaries are finite maps with string keys; a
    snapshot maps the keys it holds to floats.  Strings are the UTF-8 bytes
    of the Python strings.  The body of [recommend] is written in a small
    state-and-exception monad over the objects the Python function touches:
    the caller's [env] dictionary and the two local lists [alerts] and
    [actions].  A second embedding, [Numeric], takes the confidence and the
    readings from Python's [int] and [float] together, and a third part
    models the console session of [get_env_manual] and [main]. *)

From Stdlib Require Import ZArith NArith Floats String Ascii List.
From stdpp Require Import base option gmap strings pretty.
Import ListNotations.

Set Warnings "-inexact-float".

Local Open Scope string_scope.

(** ** Python floats *)

Module PyFloat.

(** [x > y] on floats is [y < x]; with a NaN on either side both are false. *)
Definition gtb (x y : float) : bool := (y <? x)%float.

(** The integer nearest to [num / den], ties to the even one. *)
Definition round_half_even (num den : N) : N :=
  let q := (num / den)%N in
  let r := (num mod den)%N in
  match (2 * r ?= den)%N with
  | Lt => q
  | Gt => (q + 1)%N
  | Eq => if N.even q then q else (q + 1)%N
  end.

(** The magnitude [m * 2^e] in hundredths, correctly rounded. *)
Definition hundredths (m : positive) (e : Z) : N :=
  match e with
  | Zneg p => round_half_even (100 * Npos m) (2 ^ Npos p)
  | _ => (100 * Npos m * 2 ^ Z.to_N e)%N
  end.

(** A sign and a number of hundredths printed with two decimals. *)
Definition fixed2 (neg : bool) (h : N) : string :=
  (if neg then "-" else "")
    +:+ pretty (h / 100)%N +:+ "."
    +:+ pretty ((h / 10) mod 10)%N +:+ pretty (h mod 10)%N.

(** [format(x, ".2f")]: the exact binary value rounded to the nearest
    hundredth (ties to even), the sign kept also when the digits are all
    zero, and the three special values spelled out. *)
Definition format_2f (x : float) : string :=
  match Prim2SF x with
  | S754_zero s => fixed2 s 0
  | S754_infinity s => if s then "-inf" else "inf"
  | S754_nan => "nan"
  | S754_finite s m e => fixed2 s (hundredths m e)
  end.

(** *** [repr]: the shortest decimal that reads back as the same float *)

(** The number of zeros between the point and the first non-zero digit
    of [num / den], for [0 < num < den]. *)
Fixpoint leading_zeros (fuel : nat) (num den : N) : N :=
  match fuel with
  | O => 0%N
  | S fuel' =>
      if (den <=? 10 * num)%N then 0%N
      else (1 + leading_zeros fuel' (10 * num) den)%N
  end.

(** The position of the decimal point: the [d] with
    [10^(d-1) <= num / den < 10^d]. *)
Definition decimal_point (num den : N) : Z :=
  if (den <=? num)%N
  then Z.of_nat (String.length (pretty (num / den)%N))
  else (- Z.of_N (leading_zeros 400 num den))%Z.

(** [c * 10^p] with the trailing zeros of [c] moved into the exponent. *)
Fixpoint strip_zeros (fuel : nat) (c : N) (p : Z) : N * Z :=
  match fuel with
  | O => (c, p)
  | S fuel' =>
      if ((0 <? c) && (c mod 10 =? 0))%N
      then strip_zeros fuel' (c / 10)%N (p + 1)%Z
      else (c, p)
  end.

(** The floats that round to [m * 2^e] fill the interval between the two
    midpoints to its neighbours, ends included when [m] is even.  With
    [k] digits, the candidates are the two decimals [c * 10^p] around the
    value; the nearer of those inside the interval wins, the even one on a
    tie.  [lo], [v] and [hi] are numerators over the denominator [den]. *)
Definition candidate (closed : bool) (lo v hi den : N) (dpt : Z) (k : nat)
  : option (N * Z) :=
  let p := (dpt - Z.of_nat k)%Z in
  let sn := (10 ^ Z.to_N (- p))%N in
  let sd := (den * 10 ^ Z.to_N p)%N in
  let cf := ((v * sn) / sd)%N in
  let inside (c : N) :=
    if closed
    then ((lo * sn <=? c * sd) && (c * sd <=? hi * sn))%N
    else ((lo * sn <? c * sd) && (c * sd <? hi * sn))%N in
  let up :=
    match (2 * ((v * sn) mod sd) ?= sd)%N with
    | Lt => false
    | Gt => true
    | Eq => N.odd cf
    end in
  match inside cf, inside (cf + 1)%N with
  | true, true => Some (if up then (cf + 1)%N else cf, p)
  | true, false => Some (cf, p)
  | false, true => Some ((cf + 1)%N, p)
  | false, false => None
  end.

(** The first digit count, from [k] up, that has a candidate; seventeen
    digits always have one. *)
Fixpoint shortest (fuel : nat) (closed : bool) (lo v hi den : N) (dpt : Z)
    (k : nat) : N * Z :=
  match candidate closed lo v hi den dpt k, fuel with
  | Some cp, _ => cp
  | None, S fuel' => shortest fuel' closed lo v hi den dpt (S k)
  | None, O => (0%N, 0%Z)
  end.

(** The shortest digits of the magnitude [m * 2^e]: the digit string and
    the position of the decimal point in front of it. *)
Definition shortest_digits (m : positive) (e : Z) : string * Z :=
  let below :=
    if ((Npos m =? 2 ^ 52)%N && (-1074 <? e)%Z)%bool then 1%N else 2%N in
  let up2 := (2 ^ Z.to_N (e - 2))%N in
  let den := (2 ^ Z.to_N (2 - e))%N in
  let v := (4 * Npos m * up2)%N in
  let lo := ((4 * Npos m - below) * up2)%N in
  let hi := ((4 * Npos m + 2) * up2)%N in
  let dpt := decimal_point v den in
  let '(c, p) := shortest 17 (N.even (Npos m)) lo v hi den dpt 1 in
  let '(c, p) := strip_zeros 400 c p in
  let ds := pretty c in
  (ds, (p + Z.of_nat (String.length ds))%Z).

(** A run of [n] zeros. *)
Definition zeros (n : Z) : string :=
  string_of_list_ascii (repeat "0"%char (Z.to_nat n)).

(** The exponent of the scientific form: a sign and at least two digits. *)
Definition exponent_text (x : Z) : string :=
  (if (x <? 0)%Z then "-" else "+")
    +:+ (if (Z.abs x <? 10)%Z then "0" else "")
    +:+ pretty (Z.abs_N x).

(** Digits laid out as [repr] does: scientific when the point falls more
    than 16 places right of the first digit or more than 3 places left of
    it, positional with at least one digit after the point otherwise. *)
Definition layout (ds : string) (dpt : Z) : string :=
  let n := Z.of_nat (String.length ds) in
  if ((dpt <=? -4) || (16 <? dpt))%Z then
    match ds with
    | String d EmptyString => String d "" +:+ "e" +:+ exponent_text (dpt - 1)
    | String d rest =>
        String d "" +:+ "." +:+ rest +:+ "e" +:+ exponent_text (dpt - 1)
    | EmptyString => EmptyString
    end
  else if (dpt <=? 0)%Z then "0." +:+ zeros (- dpt) +:+ ds
  else if (n <=? dpt)%Z then ds +:+ zeros (dpt - n) +:+ ".0"
  else
    String.substring 0 (Z.to_nat dpt) ds +:+ "."
      +:+ String.substring (Z.to_nat dpt) (Z.to_nat (n - dpt)) ds.

(** [repr(x)], which is also [str(x)] and what an f-string field [{x}]
    inserts. *)
Definition float_repr (x : float) : string :=
  match Prim2SF x with
  | S754_zero s => if s then "-0.0" else "0.0"
  | S754_infinity s => if s then "-inf" else "inf"
  | S754_nan => "nan"
  | S754_finite s m e =>
      let '(ds, dpt) := shortest_digits m e in
      (if s then "-" else "") +:+ layout ds dpt
  end.

End PyFloat.

Export PyFloat.

(** ** The state and exception monad of the function body *)

Inductive exn : Type :=
  | KeyError (key : string).

Inductive outcome (A : Type) : Type :=
  | Return (a : A)
  | Raise (e : exn).
Arguments Return {A} a.
Arguments Raise {A} e.

(** The objects a call reads and writes: the dictionary passed as [env]
    (the caller's object, not a copy) and the lists bound to the local
    names [alerts] and [actions]. *)
Record store : Type := Store {
  st_env : gmap string float;
  st_alerts : list string;
  st_actions : list string
}.

Definition py (A : Type) : Type := store -> outcome A * store.

#[global] Instance py_ret : MRet py := fun A a s => (Return a, s).

#[global] Instance py_bind : MBind py := fun A B k c s =>
  match c s with
  | (Return a, s') => k a s'
  | (Raise e, s') => (Raise e, s')
  end.

Definition raise {A : Type} (e : exn) : py A := fun s => (Raise e, s).

(** [d[key]]: raises [KeyError] when the key is missing. *)
Definition subscript {V : Type} (d : gmap string V) (key : string) : py V :=
  match d !! key with
  | Some v => mret v
  | None => raise (KeyError key)
  end.

(** [key in env] *)
Definition env_contains (key : string) : py bool :=
  fun s => (Return (bool_decide (is_Some (st_env s !! key))), s).

(** [env.get(key, None)] *)
Definition env_get (key : string) : py (option float) :=
  fun s => (Return (st_env s !! key), s).

(** [alerts.append(msg)] *)
Definition alerts_append (msg : string) : py unit :=
  fun s => (Return tt, Store (st_env s) (st_alerts s ++ [msg]) (st_actions s)).

(** [actions += items] *)
Definition actions_extend (items : list string) : py unit :=
  fun s => (Return tt, Store (st_env s) (st_alerts s) (st_actions s ++ items)).

(** [actions.append(item)] *)
Definition actions_append (item : string) : py unit :=
  fun s => (Return tt, Store (st_env s) (st_alerts s) (st_actions s ++ [item])).

Definition read_alerts : py (list string) := fun s => (Return (st_alerts s), s).
Definition read_actions : py (list string) := fun s => (Return (st_actions s), s).

(** [if b: c] with no [else]. *)
Definition when (b : bool) (c : py unit) : py unit :=
  if b then c else mret tt.

(** ** Configuration tables *)

Definition SEVERITY : gmap string string :=
  {[ "bacterial_blotch_disease" := "moderate";
     "dry_bubble_disease" := "moderate";
     "green_molds_disease" := "high";
     "healthy_fruiting_bag" := "none";
     "healthy_mushroom" := "none" ]}.

Definition TARGETS : gmap string (float * float) :=
  {[ "temp_c" := (20.0, 28.0)%float;
     "humidity_rh" := (85.0, 95.0)%float;
     "light_lux" := (50.0, 300.0)%float;
     "substrate_moisture_pct" := (55.0, 65.0)%float ]}.

Definition CONF_THRESHOLD : float := 0.70%float.

(** ** The rule engine *)

Definition check_range (key unit_ : string) : py unit :=
  '(lo, hi) ← subscript TARGETS key;
  v ← env_get key;
  match v with
  | None => mret tt
  | Some v =>
      when ((v <? lo)%float || gtb v hi)
        (alerts_append
           (key +:+ " out of range: " +:+ float_repr v +:+ unit_
                +:+ " (target " +:+ float_repr lo +:+ "-" +:+ float_repr hi
                +:+ unit_ +:+ ")"))
  end.

Definition recommend_body (pred_class : string) (conf : float)
  : py (string * list string * list string) :=
  let severity := default "unknown" (SEVERITY !! pred_class) in
  if (conf <? CONF_THRESHOLD)%float then
    alerts_append ("Low confidence (" +:+ format_2f conf +:+ ").");;
    actions_extend
      [ "Retake photo with better focus and lighting; keep subject centered.";
        "If symptoms persist, isolate and monitor the bag/mushroom." ];;
    alerts ← read_alerts;
    actions ← read_actions;
    mret (severity, alerts, actions)
  else
    b ← env_contains "temp_c"; when b (check_range "temp_c" "°C");;
    b ← env_contains "humidity_rh"; when b (check_range "humidity_rh" "%");;
    b ← env_contains "light_lux"; when b (check_range "light_lux" " lux");;
    b ← env_contains "substrate_moisture_pct";
      when b (check_range "substrate_moisture_pct" "%");;
    (if (pred_class =? "green_molds_disease")%string then
       actions_extend
         [ "HIGH severity: isolate/remove contaminated bag immediately to prevent spread.";
           "Sterilize tools and nearby surfaces.";
           "Reduce overly-wet conditions; increase fresh-air exchange." ]
     else if (pred_class =? "dry_bubble_disease")%string then
       actions_extend
         [ "MODERATE severity: isolate affected bag.";
           "Avoid direct misting on fruiting bodies; improve airflow.";
           "Sanitize handling area and tools." ]
     else if (pred_class =? "bacterial_blotch_disease")%string then
       actions_extend
         [ "MODERATE severity: reduce surface moisture (avoid water droplets on caps).";
           "Increase ventilation; avoid overcrowding.";
           "Sanitize area to reduce bacterial spread." ]
     else
       actions_extend
         [ "No disease detected: continue monitoring.";
           "Maintain chamber conditions within target ranges." ]);;
    q ← env_get "substrate_quality_score";
    when (match q with Some q => (q <? 0.6)%float | None => false end)
      (alerts_append "Substrate quality flagged as poor (score < 0.6).";;
       actions_append
         "Consider replacing/refreshing substrate and reviewing sterilization/pasteurization.");;
    alerts ← read_alerts;
    actions ← read_actions;
    mret (severity, alerts, actions).

(** A call: fresh empty [alerts] and [actions], the caller's [env]. *)
Definition recommend (pred_class : string) (conf : float)
    (env : gmap string float)
  : outcome (string * list string * list string) * store :=
  recommend_body pred_class conf (Store env [] []).

(** ** Vocabulary of the specification *)

Local Open Scope list_scope.

(** The four metrics that have a target range. *)
Definition tracked_metrics : list string :=
  ["temp_c"; "humidity_rh"; "light_lux"; "substrate_moisture_pct"].

(** Strictly below the lower bound or strictly above the upper one. *)
Definition out_of_range (key : string) (v : float) : bool :=
  match TARGETS !! key with
  | Some (lo, hi) => (v <? lo)%float || (hi <? v)%float
  | None => false
  end.

(** Inside the closed target band. *)
Definition within_range (key : string) (v : float) : bool :=
  match TARGETS !! key with
  | Some (lo, hi) => (lo <=? v)%float && (v <=? hi)%float
  | None => false
  end.

(** An alert names a metric when it opens with the metric's key followed by
    the words of the range message. *)
Definition names_metric (key alert : string) : bool :=
  String.prefix (key +:+ " out of range: ") alert.

Definition is_range_alert (alert : string) : bool :=
  existsb (fun key => names_metric key alert) tracked_metrics.

Definition quality_alert : string :=
  "Substrate quality flagged as poor (score < 0.6).".

Definition quality_action : string :=
  "Consider replacing/refreshing substrate and reviewing sterilization/pasteurization.".

Definition retake_actions : list string :=
  [ "Retake photo with better focus and lighting; keep subject centered.";
    "If symptoms persist, isolate and monitor the bag/mushroom." ].

(** The four branches of the category dispatch. *)
Inductive branch : Type :=
  | GreenMolds
  | DryBubble
  | BacterialBlotch
  | Generic.

(** The condition under which the specification lets a branch fire. *)
Definition fires (b : branch) (pred_class : string) : Prop :=
  match b with
  | GreenMolds => pred_class = "green_molds_disease"
  | DryBubble => pred_class = "dry_bubble_disease"
  | BacterialBlotch => pred_class = "bacterial_blotch_disease"
  | Generic =>
      pred_class <> "green_molds_disease"
      /\ pred_class <> "dry_bubble_disease"
      /\ pred_class <> "bacterial_blotch_disease"
  end.

(** The ordered action list of a branch. *)
Definition block (b : branch) : list string :=
  match b with
  | GreenMolds =>
      [ "HIGH severity: isolate/remove contaminated bag immediately to prevent spread.";
        "Sterilize tools and nearby surfaces.";
        "Reduce overly-wet conditions; increase fresh-air exchange." ]
  | DryBubble =>
      [ "MODERATE severity: isolate affected bag.";
        "Avoid direct misting on fruiting bodies; improve airflow.";
        "Sanitize handling area and tools." ]
  | BacterialBlotch =>
      [ "MODERATE severity: reduce surface moisture (avoid water droplets on caps).";
        "Increase ventilation; avoid overcrowding.";
        "Sanitize area to reduce bacterial spread." ]
  | Generic =>
      [ "No disease detected: continue monitoring.";
        "Maintain chamber conditions within target ranges." ]
  end.

(** The branch the dispatch takes, read off the chain of comparisons. *)
Definition branch_of (pred_class : string) : branch :=
  if (pred_class =? "green_molds_disease")%string then GreenMolds
  else if (pred_class =? "dry_bubble_disease")%string then DryBubble
  else if (pred_class =? "bacterial_blotch_disease")%string then BacterialBlotch
  else Generic.

(** The severity the specification assigns to a category. *)
Definition severity_of (pred_class : string) : string :=
  match SEVERITY !! pred_class with
  | Some s => s
  | None => "unknown"
  end.

(** Projections of a call's outcome. *)
Definition returned {A : Type} (r : outcome A * store) : outcome A := fst r.
Definition env_after {A : Type} (r : outcome A * store) : gmap string float :=
  st_env (snd r).

(** What one guarded range check adds to [alerts]. *)
Definition range_alerts (key unit_ : string) (env : gmap string float)
  : list string :=
  match env !! key, TARGETS !! key with
  | Some v, Some (lo, hi) =>
      if out_of_range key v
      then [ key +:+ " out of range: " +:+ float_repr v +:+ unit_
                 +:+ " (target " +:+ float_repr lo +:+ "-" +:+ float_repr hi
                 +:+ unit_ +:+ ")" ]
      else []
  | _, _ => []
  end.

(** Whether the substrate-quality heuristic fires. *)
Definition poor_quality (env : gmap string float) : bool :=
  match env !! "substrate_quality_score" with
  | Some q => (q <? 0.6)%float
  | None => false
  end.

(** All range alerts of a snapshot, in the order the checks run. *)
Definition env_alerts (env : gmap string float) : list string :=
  range_alerts "temp_c" "°C" env
    ++ range_alerts "humidity_rh" "%" env
    ++ range_alerts "light_lux" " lux" env
    ++ range_alerts "substrate_moisture_pct" "%" env.

Definition quality_alerts (env : gmap string float) : list string :=
  if poor_quality env then [quality_alert] else [].

Definition quality_actions (env : gmap string float) : list string :=
  if poor_quality env then [quality_action] else [].

(** The readings that are present all lie inside their target bands. *)
Definition readings_within_range (env : gmap string float) : bool :=
  forallb
    (fun key =>
       match env !! key with
       | Some v => within_range key v
       | None => true
       end)
    tracked_metrics.

(** The substrate quality score is absent or at least 0.6. *)
Definition quality_acceptable (env : gmap string float) : bool :=
  match env !! "substrate_quality_score" with
  | Some q => (0.6 <=? q)%float
  | None => true
  end.

(** The number of alerts that name a metric. *)
Definition alerts_naming (key : string) (alerts : list string) : nat :=
  length (List.filter (names_metric key) alerts).

(** The keys of the snapshot the engine looks at. *)
Definition recognized_keys : list string :=
  tracked_metrics ++ ["substrate_quality_score"].



(** ** Further vocabulary: messages, severities, snapshots *)

(** The unit a range check prints after its numbers. *)
Definition unit_of (key : string) : string :=
  if (key =? "temp_c")%string then "°C"
  else if (key =? "light_lux")%string then " lux"
  else "%".

(** The text of the alert for a reading [v] outside the band [lo]-[hi]. *)
Definition range_message (key : string) (v lo hi : float) : string :=
  key +:+ " out of range: " +:+ float_repr v +:+ unit_of key
      +:+ " (target " +:+ float_repr lo +:+ "-" +:+ float_repr hi
      +:+ unit_of key +:+ ")".

(** The four severity ratings. *)
Definition severities : list string := ["none"; "moderate"; "high"; "unknown"].

(** ** The console session: [get_env_manual] and [main] *)

(** The exceptions a session can end with. *)
Inductive session_exn : Type :=
  | EOFError                      (* [input] at the end of the input *)
  | ValueError (text : string)    (* [float(text)] on a malformed numeral *)
  | LookupError (id : Z)          (* [model.names[id]] without that id *)
  | LibraryError                  (* raised inside the classifier library *)
  | EngineError (e : exn).        (* raised by [recommend] *)

Inductive session_result (A : Type) : Type :=
  | Done (a : A)
  | Failed (e : session_exn).
Arguments Done {A} a.
Arguments Failed {A} e.

(** What a session reads and writes: the lines still to come on standard
    input, the texts written to standard output so far, and the content of
    the log file [kabutech_log.jsonl] (empty when the file does not exist). *)
Record world : Type := World {
  stdin : list string;
  stdout : list string;
  log : string
}.

Definition io (A : Type) : Type := world -> session_result A * world.

#[global] Instance io_ret : MRet io := fun A a w => (Done a, w).

#[global] Instance io_bind : MBind io := fun A B k c w =>
  match c w with
  | (Done a, w') => k a w'
  | (Failed e, w') => (Failed e, w')
  end.

Definition throw {A : Type} (e : session_exn) : io A := fun w => (Failed e, w).

(** The newline and the double quote. *)
Definition nl : string := String "010"%char "".
Definition dquote : ascii := "034"%char.

(** [input(prompt)]: the prompt goes to standard output, then a line is
    read; at the end of the input the call raises [EOFError]. *)
Definition input (prompt : string) : io string := fun w =>
  match stdin w with
  | line :: rest => (Done line, World rest (stdout w ++ [prompt]) (log w))
  | [] => (Failed EOFError, World [] (stdout w ++ [prompt]) (log w))
  end.

(** [print(text)] *)
Definition print (text : string) : io unit := fun w =>
  (Done tt, World (stdin w) (stdout w ++ [text +:+ nl]) (log w)).

(** [with log_path.open("a") as f: f.write(text)] *)
Definition append_log (text : string) : io unit := fun w =>
  (Done tt, World (stdin w) (stdout w) (log w +:+ text)).

(** [s.strip(c)] for a one-character [c]: leading and trailing copies of
    the character removed. *)
Fixpoint lstrip_char (c : ascii) (s : string) : string :=
  match s with
  | String a s' => if Ascii.eqb a c then lstrip_char c s' else s
  | EmptyString => EmptyString
  end.

Definition strip_char (c : ascii) (s : string) : string :=
  String.rev (lstrip_char c (String.rev (lstrip_char c s))).

(** The two built-in conversions [get_float] relies on: [s.strip()] and
    [float(s)], the latter with [None] where Python raises [ValueError]. *)
Class Builtins : Type := {
  str_strip : string -> string;
  float_of_str : string -> option float
}.

Definition get_float `{Builtins} (prompt : string) : io (option float) :=
  line ← input prompt;
  let s := str_strip line in
  if (s =? "")%string then mret None
  else match float_of_str s with
       | Some x => mret (Some x)
       | None => throw (ValueError s)
       end.

(** [if v is not None: env[key] = v] *)
Definition store_reading (key : string) (v : option float)
    (env : gmap string float) : gmap string float :=
  match v with
  | Some x => <[key := x]> env
  | None => env
  end.

Definition get_env_manual `{Builtins} : io (gmap string float) :=
  let env : gmap string float := ∅ in
  v ← get_float "Temperature (°C) [Enter to skip]: ";
  let env := store_reading "temp_c" v env in
  v ← get_float "Humidity (%RH) [Enter to skip]: ";
  let env := store_reading "humidity_rh" v env in
  v ← get_float "Light intensity (lux) [Enter to skip]: ";
  let env := store_reading "light_lux" v env in
  v ← get_float "Substrate moisture (%) [Enter to skip]: ";
  let env := store_reading "substrate_moisture_pct" v env in
  v ← get_float "Substrate quality score (0..1) [Enter to skip]: ";
  let env := store_reading "substrate_quality_score" v env in
  mret env.

(** What [model.predict(...)[0].probs] holds for the session. *)
Record prediction : Type := Prediction {
  top1 : Z;
  top1conf : float
}.

(** The record a session prints and logs, field by field as the dictionary
    [result] of [main]. *)
Record result : Type := Result {
  r_timestamp : string;
  r_image : string;
  r_predicted_class : string;
  r_confidence : float;
  r_severity : string;
  r_environment : gmap string float;
  r_alerts : list string;
  r_actions : list string
}.

(** The libraries [main] calls: the classifier ([None] where a call
    raises), the file system, the clock, [round] and [json.dumps] (with its
    [indent] argument). *)
Class Services : Type := {
  yolo : Type;
  YOLO : string -> option yolo;
  predict : yolo -> string -> option prediction;
  names : yolo -> gmap Z string;
  path_exists : string -> bool;
  path_str : string -> string;
  path_resolve : string -> string;
  now_isoformat : string;
  round_digits : float -> Z -> float;
  json_dumps : option nat -> result -> string
}.

Definition MODEL_PATH : string := "runs/classify/train/weights/best.pt".

Definition from_library {A : Type} (r : option A) : io A :=
  match r with
  | Some a => mret a
  | None => throw LibraryError
  end.

(** The call of [recommend] from [main]: the dictionary that comes back is
    the one that went in, in whatever state the call left it. *)
Definition call_recommend (pred_class : string) (conf : float)
    (env : gmap string float)
  : io (string * list string * list string * gmap string float) :=
  match recommend pred_class conf env with
  | (Return (severity, alerts, actions), s) =>
      mret (severity, alerts, actions, st_env s)
  | (Raise e, _) => throw (EngineError e)
  end.

Definition main `{Builtins} `{Services} : io unit :=
  model ← from_library (YOLO MODEL_PATH);
  line ← input "Path to image: ";
  let img_path := strip_char dquote (str_strip line) in
  if negb (path_exists img_path) then
    print "Image path not found."
  else
    env ← get_env_manual;
    r ← from_library (predict model (path_str img_path));
    let pred_id := top1 r in
    let conf := top1conf r in
    pred_class ← match names model !! pred_id with
                 | Some c => mret c
                 | None => throw (LookupError pred_id)
                 end;
    '(severity, alerts, actions, env) ← call_recommend pred_class conf env;
    let result :=
      Result now_isoformat (path_str img_path) pred_class
        (round_digits conf 4) severity env alerts actions in
    print (nl +:+ "=== KabuTech Result ===");;
    print (json_dumps (Some 2) result);;
    append_log (json_dumps None result +:+ nl);;
    print (nl +:+ "Logged to: " +:+ path_resolve "kabutech_log.jsonl").

(** *** Vocabulary for the session *)

(** The five prompts of [get_env_manual] with the key each fills. *)
Definition env_fields : list (string * string) :=
  [ ("Temperature (°C) [Enter to skip]: ", "temp_c");
    ("Humidity (%RH) [Enter to skip]: ", "humidity_rh");
    ("Light intensity (lux) [Enter to skip]: ", "light_lux");
    ("Substrate moisture (%) [Enter to skip]: ", "substrate_moisture_pct");
    ("Substrate quality score (0..1) [Enter to skip]: ",
     "substrate_quality_score") ].

Definition env_prompts : list string := map fst env_fields.

(** How an answer reads: left blank, a number, or malformed. *)
Inductive answer : Type :=
  | Skipped
  | Reading (x : float)
  | Malformed (text : string).

Definition read_answer `{Builtins} (line : string) : answer :=
  if (str_strip line =? "")%string then Skipped
  else match float_of_str (str_strip line) with
       | Some x => Reading x
       | None => Malformed (str_strip line)
       end.

Definition well_formed `{Builtins} (line : string) : bool :=
  match read_answer line with
  | Malformed _ => false
  | _ => true
  end.

Definition answer_value (a : answer) : option float :=
  match a with
  | Reading x => Some x
  | _ => None
  end.

(** The questions asked one after the other, from a list of fields. *)
Fixpoint collect `{Builtins} (fields : list (string * string))
    (env : gmap string float) : io (gmap string float) :=
  match fields with
  | [] => mret env
  | (prompt, key) :: fields' =>
      v ← get_float prompt; collect fields' (store_reading key v env)
  end.

(** The snapshot a list of answers fills in. *)
Fixpoint filled `{Builtins} (fields : list (string * string))
    (lines : list string) (env : gmap string float) : gmap string float :=
  match fields, lines with
  | (_, key) :: fields', line :: lines' =>
      filled fields' lines'
        (store_reading key (answer_value (read_answer line)) env)
  | _, _ => env
  end.

(** The image path [main] works with: the answer stripped of blanks and
    of surrounding double quotes. *)
Definition image_path `{Builtins} (line : string) : string :=
  strip_char dquote (str_strip line).

(** *** A test double of the runtime, to run sessions on *)

(** Unsigned decimal numerals: digits with at most one point. *)
Fixpoint read_decimal (s : string) (num den : N) (point digit : bool)
  : option (N * N) :=
  match s with
  | EmptyString => if digit then Some (num, den) else None
  | String c s' =>
      let d := N_of_ascii c in
      if ((48 <=? d) && (d <=? 57))%N then
        read_decimal s' (10 * num + (d - 48))%N
          (if point then (10 * den)%N else den) point true
      else if (Ascii.eqb c "."%char && negb point)%bool then
        read_decimal s' num den true digit
      else None
  end.

Definition float_of_N (n : N) : float :=
  PrimFloat.of_uint63 (Uint63.of_Z (Z.of_N n)).

#[global] Instance plain_builtins : Builtins := {
  str_strip := strip_char " "%char;
  float_of_str s :=
    match read_decimal s 0 1 false false with
    | Some (num, den) =>
        if ((num <? 2 ^ 53) && (den <=? 10 ^ 22))%N
        then Some (float_of_N num / float_of_N den)%float
        else None
    | None => None
    end
}.

(** A classifier double that sees green molds with confidence 0.95 in
    every image, a file system that holds [bag.jpg] only, a stopped clock,
    an identity [round] and a one-line stand-in for [json.dumps]. *)
#[global] Instance stub_services : Services := {
  yolo := unit;
  YOLO _ := Some tt;
  predict _ _ := Some (Prediction 2 0.95);
  names _ :=
    {[ 0%Z := "bacterial_blotch_disease"; 1%Z := "dry_bubble_disease";
       2%Z := "green_molds_disease"; 3%Z := "healthy_fruiting_bag";
       4%Z := "healthy_mushroom" ]};
  path_exists p := (p =? "bag.jpg")%string;
  path_str p := p;
  path_resolve p := "/srv/kabutech/" +:+ p;
  now_isoformat := "2025-01-01T12:00:00";
  round_digits x _ := x;
  json_dumps _ r :=
    "{" +:+ r_image r +:+ " " +:+ r_predicted_class r +:+ " "
        +:+ r_severity r +:+ "}"
}.

(** ** The rule engine on Python's numbers: [int] and [float]

    [recommend] is annotated for a [float] confidence and [main] passes it
    floats only, but the function accepts any number.  This second embedding
    takes the confidence and the readings from Python's built-in real
    numbers, [int] (unbounded) and [float], with the comparisons and the
    conversions Python makes between them, to see where the float-only
    reading of the function stops. *)

Module Numeric.

Inductive number : Type :=
  | PyInt (n : Z)
  | PyFloat (x : float).

Inductive exn : Type :=
  | KeyError (key : string)   (* [TARGETS[key]] without that key *)
  | OverflowError             (* an [int] too large to convert to [float] *)
  | ValueError.               (* an [int] beyond the digit limit of [str] *)

Inductive outcome (A : Type) : Type :=
  | Return (a : A)
  | Raise (e : exn).
Arguments Return {A} a.
Arguments Raise {A} e.

(** The signed integer [±m]. *)
Definition signed (s : bool) (m : positive) : Z :=
  if s then Zneg m else Zpos m.

(** [n < y] for an [int] and a [float]: Python compares the exact values,
    whatever the size of the [int]; a NaN is above and below nothing. *)
Definition int_ltb_float (n : Z) (y : float) : bool :=
  match Prim2SF y with
  | S754_nan => false
  | S754_infinity s => negb s
  | S754_zero _ => (n <? 0)%Z
  | S754_finite s m e =>
      match e with
      | Zneg p => (n * 2 ^ Zpos p <? signed s m)%Z
      | _ => (n <? signed s m * 2 ^ e)%Z
      end
  end.

(** [x < n] for a [float] and an [int]. *)
Definition float_ltb_int (x : float) (n : Z) : bool :=
  match Prim2SF x with
  | S754_nan => false
  | S754_infinity s => s
  | S754_zero _ => (0 <? n)%Z
  | S754_finite s m e =>
      match e with
      | Zneg p => (signed s m <? n * 2 ^ Zpos p)%Z
      | _ => (signed s m * 2 ^ e <? n)%Z
      end
  end.

(** [a < b] and [a > b] on numbers. *)
Definition ltb (a b : number) : bool :=
  match a, b with
  | PyInt n, PyInt k => (n <? k)%Z
  | PyInt n, PyFloat y => int_ltb_float n y
  | PyFloat x, PyInt k => float_ltb_int x k
  | PyFloat x, PyFloat y => (x <? y)%float
  end.

Definition gtb (a b : number) : bool := ltb b a.

(** [float(n)]: the nearest float, ties to even; [None] where Python
    raises [OverflowError] because the nearest float would be infinite. *)
Definition float_of_int (n : Z) : option float :=
  match binary_normalize prec emax n 0 false with
  | S754_infinity _ => None
  | sf => Some (SF2Prim sf)
  end.

(** The most digits [str] writes for an [int] (the default of
    [sys.get_int_max_str_digits()]). *)
Definition INT_MAX_STR_DIGITS : Z := 4300.

(** [format(a, ".2f")]: an [int] is first converted to [float]. *)
Definition format_2f_number (a : number) : option string :=
  match a with
  | PyFloat x => Some (format_2f x)
  | PyInt n => format_2f <$> float_of_int n
  end.

(** [format(a, "")], the text an f-string field [{a}] inserts: [repr] for
    a [float], the decimal digits for an [int], [None] where [str] raises
    [ValueError] because the digits exceed the limit. *)
Definition str_number (a : number) : option string :=
  match a with
  | PyFloat x => Some (float_repr x)
  | PyInt n =>
      if (Z.abs n <? 10 ^ INT_MAX_STR_DIGITS)%Z then Some (pretty n) else None
  end.

Record store : Type := Store {
  st_env : gmap string number;
  st_alerts : list string;
  st_actions : list string
}.

Definition py (A : Type) : Type := store -> outcome A * store.

#[global] Instance py_ret : MRet py := fun A a s => (Return a, s).

#[global] Instance py_bind : MBind py := fun A B k c s =>
  match c s with
  | (Return a, s') => k a s'
  | (Raise e, s') => (Raise e, s')
  end.

Definition raise {A : Type} (e : exn) : py A := fun s => (Raise e, s).

(** The value of a conversion, or the exception it raises. *)
Definition or_raise {A : Type} (e : exn) (r : option A) : py A :=
  match r with
  | Some a => mret a
  | None => raise e
  end.

Definition subscript {V : Type} (d : gmap string V) (key : string) : py V :=
  or_raise (KeyError key) (d !! key).

Definition env_contains (key : string) : py bool :=
  fun s => (Return (bool_decide (is_Some (st_env s !! key))), s).

Definition env_get (key : string) : py (option number) :=
  fun s => (Return (st_env s !! key), s).

Definition alerts_append (msg : string) : py unit :=
  fun s => (Return tt, Store (st_env s) (st_alerts s ++ [msg]) (st_actions s)).

Definition actions_extend (items : list string) : py unit :=
  fun s => (Return tt, Store (st_env s) (st_alerts s) (st_actions s ++ items)).

Definition actions_append (item : string) : py unit :=
  fun s => (Return tt, Store (st_env s) (st_alerts s) (st_actions s ++ [item])).

Definition read_alerts : py (list string) := fun s => (Return (st_alerts s), s).
Definition read_actions : py (list string) := fun s => (Return (st_actions s), s).

Definition when (b : bool) (c : py unit) : py unit :=
  if b then c else mret tt.

Definition check_range (key unit_ : string) : py unit :=
  '(lo, hi) ← subscript TARGETS key;
  v ← env_get key;
  match v with
  | None => mret tt
  | Some v =>
      when (ltb v (PyFloat lo) || gtb v (PyFloat hi))
        (text ← or_raise ValueError (str_number v);
         alerts_append
           (key +:+ " out of range: " +:+ text +:+ unit_
                +:+ " (target " +:+ float_repr lo +:+ "-" +:+ float_repr hi
                +:+ unit_ +:+ ")"))
  end.

Definition recommend_body (pred_class : string) (conf : number)
  : py (string * list string * list string) :=
  let severity := default "unknown" (SEVERITY !! pred_class) in
  if ltb conf (PyFloat CONF_THRESHOLD) then
    text ← or_raise OverflowError (format_2f_number conf);
    alerts_append ("Low confidence (" +:+ text +:+ ").");;
    actions_extend
      [ "Retake photo with better focus and lighting; keep subject centered.";
        "If symptoms persist, isolate and monitor the bag/mushroom." ];;
    alerts ← read_alerts;
    actions ← read_actions;
    mret (severity, alerts, actions)
  else
    b ← env_contains "temp_c"; when b (check_range "temp_c" "°C");;
    b ← env_contains "humidity_rh"; when b (check_range "humidity_rh" "%");;
    b ← env_contains "light_lux"; when b (check_range "light_lux" " lux");;
    b ← env_contains "substrate_moisture_pct";
      when b (check_range "substrate_moisture_pct" "%");;
    (if (pred_class =? "green_molds_disease")%string then
       actions_extend
         [ "HIGH severity: isolate/remove contaminated bag immediately to prevent spread.";
           "Sterilize tools and nearby surfaces.";
           "Reduce overly-wet conditions; increase fresh-air exchange." ]
     else if (pred_class =? "dry_bubble_disease")%string then
       actions_extend
         [ "MODERATE severity: isolate affected bag.";
           "Avoid direct misting on fruiting bodies; improve airflow.";
           "Sanitize handling area and tools." ]
     else if (pred_class =? "bacterial_blotch_disease")%string then
       actions_extend
         [ "MODERATE severity: reduce surface moisture (avoid water droplets on caps).";
           "Increase ventilation; avoid overcrowding.";
           "Sanitize area to reduce bacterial spread." ]
     else
       actions_extend
         [ "No disease detected: continue monitoring.";
           "Maintain chamber conditions within target ranges." ]);;
    q ← env_get "substrate_quality_score";
    when (match q with Some q => ltb q (PyFloat 0.6) | None => false end)
      (alerts_append "Substrate quality flagged as poor (score < 0.6).";;
       actions_append
         "Consider replacing/refreshing substrate and reviewing sterilization/pasteurization.");;
    alerts ← read_alerts;
    actions ← read_actions;
    mret (severity, alerts, actions).

Definition recommend (pred_class : string) (conf : number)
    (env : gmap string number)
  : outcome (string * list string * list string) * store :=
  recommend_body pred_class conf (Store env [] []).

(** A number that [float] can take: every [float], and the [int]s whose
    nearest float is finite. *)
Definition convertible (a : number) : Prop :=
  is_Some (format_2f_number a).

(** A number that [str] can write: every [float], and the [int]s of at
    most 4300 digits. *)
Definition printable (a : number) : Prop :=
  is_Some (str_number a).

End Numeric.

(** What one guarded range check adds to [alerts] on numbers, when the
    reading can be written. *)
Definition numeric_range_alerts (key unit_ : string)
    (env : gmap string Numeric.number) : list string :=
  match env !! key, TARGETS !! key with
  | Some v, Some (lo, hi) =>
      if Numeric.ltb v (Numeric.PyFloat lo) || Numeric.gtb v (Numeric.PyFloat hi)
      then match Numeric.str_number v with
           | Some text =>
               [ key +:+ " out of range: " +:+ text +:+ unit_
                     +:+ " (target " +:+ float_repr lo +:+ "-" +:+ float_repr hi
                     +:+ unit_ +:+ ")" ]
           | None => []
           end
      else []
  | _, _ => []
  end.

Definition numeric_env_alerts (env : gmap string Numeric.number)
  : list string :=
  numeric_range_alerts "temp_c" "°C" env
    ++ numeric_range_alerts "humidity_rh" "%" env
    ++ numeric_range_alerts "light_lux" " lux" env
    ++ numeric_range_alerts "substrate_moisture_pct" "%" env.

Definition numeric_poor_quality (env : gmap string Numeric.number) : bool :=
  match env !! "substrate_quality_score" with
  | Some q => Numeric.ltb q (Numeric.PyFloat 0.6)
  | None => false
  end.

(** The outcome of the float engine, read as an outcome on numbers. *)
Definition as_numeric_outcome {A : Type} (r : outcome A) : Numeric.outcome A :=
  match r with
  | Return a => Numeric.Return a
  | Raise (KeyError key) => Numeric.Raise (Numeric.KeyError key)
  end.

(** ** The two paths of [recommend], computed *)

(** A guarded range check followed by the rest of the body: the check
    leaves [env] and [actions] alone and adds its alerts, if any, at the
    end of [alerts]. *)
Lemma guarded_check_then {A : Type} (key unit_ : string) (rest : py A)
    (s : store) :
  is_Some (TARGETS !! key) ->
  (b ← env_contains key; when b (check_range key unit_);; rest) s
  = rest (Store (st_env s)
                (st_alerts s ++ range_alerts key unit_ (st_env s))
                (st_actions s)).
Proof.
  intros [[lo hi] Ht]. destruct s as [env al ac].
  unfold range_alerts, out_of_range, check_range, subscript, gtb.
  unfold mbind, py_bind, env_contains, env_get. simpl. rewrite Ht.
  destruct (env !! key) as [v|] eqn:Hv; simpl; rewrite ?Hv.
  - destruct ((v <? lo)%float || (hi <? v)%float); simpl; [reflexivity|].
    by rewrite app_nil_r.
  - by rewrite app_nil_r.
Qed.

(** The short-circuit path, computed. *)
Lemma recommend_low (pred_class : string) (conf : float)
    (env : gmap string float) :
  (conf <? CONF_THRESHOLD)%float = true ->
  recommend pred_class conf env
  = (Return (severity_of pred_class,
             ["Low confidence (" +:+ format_2f conf +:+ ")."],
             retake_actions),
     Store env ["Low confidence (" +:+ format_2f conf +:+ ")."] retake_actions).
Proof.
  intros Hgate. unfold recommend, recommend_body. rewrite Hgate.
  reflexivity.
Qed.

(** The full path, computed. *)
Lemma recommend_high (pred_class : string) (conf : float)
    (env : gmap string float) :
  (conf <? CONF_THRESHOLD)%float = false ->
  recommend pred_class conf env
  = (Return (severity_of pred_class,
             env_alerts env ++ quality_alerts env,
             block (branch_of pred_class) ++ quality_actions env),
     Store env
           (env_alerts env ++ quality_alerts env)
           (block (branch_of pred_class) ++ quality_actions env)).
Proof.
  intros Hgate. unfold recommend, recommend_body. rewrite Hgate.
  do 4 (rewrite guarded_check_then by (vm_compute; eauto); cbn [st_env st_alerts st_actions]).
  unfold env_alerts, quality_alerts, quality_actions, poor_quality, branch_of.
  unfold mbind, py_bind, env_get, actions_extend, read_alerts, read_actions.
  destruct (pred_class =? "green_molds_disease")%string;
    [|destruct (pred_class =? "dry_bubble_disease")%string;
      [|destruct (pred_class =? "bacterial_blotch_disease")%string]];
    cbn [st_env st_alerts st_actions app];
    (destruct (env !! "substrate_quality_score") as [q|];
     [destruct (q <? 0.6)%float|]);
    cbn [when alerts_append actions_append mret py_ret st_env st_alerts st_actions app block];
    rewrite ?app_nil_r, <- ?app_assoc; reflexivity.
Qed.

(** Split on the gate and replace the call by what its path computes. *)
Ltac on_either_path conf :=
  let Hgate := fresh "Hgate" in
  destruct (conf <? CONF_THRESHOLD)%float eqn:Hgate;
  [rewrite (recommend_low _ _ _ Hgate)|rewrite (recommend_high _ _ _ Hgate)].

(** ** Facts about float comparison and formatting *)

Module FloatFacts.

(** Swapping the arguments of the specification's comparison reverses
    its answer (and an unordered pair stays unordered). *)
Lemma SFcompare_swap (x y : spec_float) :
  SFcompare y x = option_map CompOpp (SFcompare x y).
Proof.
  destruct x as [sx|sx| |sx mx ex], y as [sy|sy| |sy my ey];
    try destruct sx; try destruct sy; try reflexivity.
  all: cbn [SFcompare option_map]; f_equal.
  all: rewrite (Z.compare_antisym ex ey).
  all: destruct (ex ?= ey)%Z; cbn [CompOpp]; try reflexivity.
  all: change PosDef.Pos.compare_cont with Pos.compare_cont.
  all: rewrite (Pos.compare_cont_antisym mx my Eq); cbn [CompOpp].
  all: by rewrite ?CompOpp_involutive.
Qed.

(** [a <= b] excludes [b < a]. *)
Lemma leb_not_gt (a b : float) :
  (a <=? b)%float = true -> (b <? a)%float = false.
Proof.
  rewrite leb_spec, ltb_spec. unfold SFleb, SFltb.
  rewrite (SFcompare_swap (Prim2SF a) (Prim2SF b)).
  by destruct (SFcompare (Prim2SF a) (Prim2SF b)) as [[ | | ]|].
Qed.

(** A float that compares equal to a non-zero finite float is that
    float. *)
Lemma eqb_finite_eq (v b : float) (s : bool) (m : positive) (e : Z) :
  Prim2SF b = S754_finite s m e -> (v =? b)%float = true -> v = b.
Proof.
  intros Hb. rewrite FloatAxioms.eqb_spec. unfold SFeqb. rewrite Hb.
  intros Hcmp.
  transitivity (SF2Prim (Prim2SF v)); [by rewrite SF2Prim_Prim2SF|].
  transitivity (SF2Prim (Prim2SF b)); [|by rewrite SF2Prim_Prim2SF].
  rewrite Hb. f_equal.
  destruct (Prim2SF v) as [sv|sv| |sv mv ev];
    try (destruct s); try (destruct sv); try discriminate Hcmp.
  all: cbn [SFcompare] in Hcmp.
  all: destruct (ev ?= e)%Z eqn:Hexp; try discriminate Hcmp.
  all: apply Z.compare_eq in Hexp.
  all: change PosDef.Pos.compare_cont with Pos.compare_cont in Hcmp.
  all: destruct (Pos.compare_cont Eq mv m) eqn:Hman; try discriminate Hcmp.
  all: apply Pos.compare_eq in Hman.
  all: by subst.
Qed.





End FloatFacts.

(** ** The claims *)

(** Whatever the gate decides, the call returns a triple whose first
    component is the severity looked up for the category. *)
Lemma recommend_returns (pred_class : string) (conf : float)
    (env : gmap string float) :
  returned (recommend pred_class conf env)
  = Return
      (severity_of pred_class,
       if (conf <? CONF_THRESHOLD)%float
       then ["Low confidence (" +:+ format_2f conf +:+ ")."]
       else env_alerts env ++ quality_alerts env,
       if (conf <? CONF_THRESHOLD)%float
       then retake_actions
       else block (branch_of pred_class) ++ quality_actions env).
Proof. unfold returned. by on_either_path conf. Qed.


(** The dispatch takes a branch whose condition holds, and no other
    branch has its condition hold. *)
Lemma branch_of_fires (pred_class : string) (b : branch) :
  fires b pred_class <-> b = branch_of pred_class.
Proof.
  unfold branch_of.
  destruct (String.eqb_spec pred_class "green_molds_disease") as [->|Hg].
  { destruct b; cbn; intuition congruence. }
  destruct (String.eqb_spec pred_class "dry_bubble_disease") as [->|Hd].
  { destruct b; cbn; intuition congruence. }
  destruct (String.eqb_spec pred_class "bacterial_blotch_disease") as [->|Hb].
  { destruct b; cbn; intuition congruence. }
  destruct b; cbn; intuition congruence.
Qed.

(** The four blocks share no action, and none holds the substrate
    action. *)
Lemma blocks_disjoint (b b' : branch) (a : string) :
  In a (block b) -> In a (block b') -> b = b'.
Proof.
  intros Hb Hb'.
  destruct b, b'; try reflexivity; cbv in Hb, Hb'; exfalso;
    intuition congruence.
Qed.

Lemma quality_action_foreign (b : branch) : ~ In quality_action (block b).
Proof. intros Hb. destruct b; cbv in Hb; intuition congruence. Qed.

(** A range message names its own metric. *)
Lemma prefix_append (s t : string) : String.prefix s (s +:+ t) = true.
Proof.
  induction s as [|c s IH].
  - by destruct t.
  - change (String c s +:+ t) with (String c (s +:+ t)).
    cbn [String.prefix].
    destruct (ascii_dec c c) as [_|Hne]; [exact IH|by destruct Hne].
Qed.

Lemma names_metric_own (key rest : string) :
  names_metric key (key +:+ " out of range: " +:+ rest) = true.
Proof.
  unfold names_metric.
  replace (key +:+ " out of range: " +:+ rest)
    with ((key +:+ " out of range: ") +:+ rest).
  - apply prefix_append.
  - induction key as [|c key IH]; [reflexivity|].
    change (String c ((key +:+ " out of range: ") +:+ rest)
            = String c (key +:+ " out of range: " +:+ rest)).
    by rewrite IH.
Qed.

(** Counting the alerts that name a metric, list by list. *)
Lemma alerts_naming_app (key : string) (l1 l2 : list string) :
  alerts_naming key (l1 ++ l2) = alerts_naming key l1 + alerts_naming key l2.
Proof.
  unfold alerts_naming. by rewrite List.filter_app, length_app.
Qed.

Lemma alerts_naming_range (key key' unit_ : string) (env : gmap string float) :
  In key tracked_metrics -> In key' tracked_metrics ->
  alerts_naming key (range_alerts key' unit_ env)
  = if decide (key = key')
    then match env !! key with
         | Some v => if out_of_range key v then 1 else 0
         | None => 0
         end
    else 0.
Proof.
  intros Hk Hk'. unfold range_alerts.
  assert (is_Some (TARGETS !! key')) as [[lo hi] Ht].
  { cbv in Hk'. intuition (subst; vm_compute; eauto). }
  rewrite Ht. destruct (decide (key = key')) as [->|Hne].
  - destruct (env !! key') as [v|]; [|reflexivity].
    destruct (out_of_range key' v); [|reflexivity].
    unfold alerts_naming. cbn [List.filter]. by rewrite names_metric_own.
  - destruct (env !! key') as [v|]; [|reflexivity].
    destruct (out_of_range key' v); [|reflexivity].
    cbv in Hk, Hk'. intuition (subst; solve [reflexivity | congruence]).
Qed.

Lemma alerts_naming_quality (key : string) (env : gmap string float) :
  In key tracked_metrics -> alerts_naming key (quality_alerts env) = 0.
Proof.
  intros Hk. unfold quality_alerts. destruct (poor_quality env); [|reflexivity].
  cbv in Hk. intuition (subst; reflexivity).
Qed.

(** On the full path a tracked metric is named by one alert when its
    reading is out of range and by none otherwise. *)
Lemma alerts_naming_full_path (key : string) (env : gmap string float) :
  In key tracked_metrics ->
  alerts_naming key (env_alerts env ++ quality_alerts env)
  = match env !! key with
    | Some v => if out_of_range key v then 1 else 0
    | None => 0
    end.
Proof.
  intros Hk. unfold env_alerts.
  rewrite !alerts_naming_app, alerts_naming_quality by done.
  rewrite !alerts_naming_range by (done || (cbv; tauto)).
  cbv in Hk.
  destruct Hk as [<-|[<-|[<-|[<-|[]]]]];
    repeat (case_decide; try done); lia.
Qed.

(** Every alert of the range checks is a range alert, and the quality
    alert is not. *)
Lemma env_alerts_are_range_alerts (env : gmap string float) :
  Forall (fun a => is_range_alert a = true) (env_alerts env).
Proof.
  unfold env_alerts, range_alerts, is_range_alert, tracked_metrics.
  repeat (apply Forall_app; split);
    repeat case_match; repeat constructor;
    cbn [existsb]; rewrite names_metric_own;
    by rewrite ?orb_true_r.
Qed.

(** A reading inside the closed band is not out of range. *)
Lemma within_range_not_out (key : string) (v : float) :
  within_range key v = true -> out_of_range key v = false.
Proof.
  unfold within_range, out_of_range.
  destruct (TARGETS !! key) as [[lo hi]|]; [|done].
  intros [Hlo Hhi]%andb_true_iff.
  by rewrite (FloatFacts.leb_not_gt _ _ Hlo), (FloatFacts.leb_not_gt _ _ Hhi).
Qed.


(** C3. The severity returned is the [SEVERITY] entry of the category when
    there is one and ["unknown"] otherwise, on both paths and whatever the
    confidence and the environment. *)
Theorem severity_lookup_stable (pred_class : string) (conf : float)
    (env : gmap string float) :
  exists (alerts actions : list string),
    returned (recommend pred_class conf env)
    = Return
        (match SEVERITY !! pred_class with
         | Some s => s
         | None => "unknown"
         end,
         alerts, actions).
Proof.
  eexists _, _. apply recommend_returns.
Qed.

(** C5. The call short-circuits (its actions are the two retake
    instructions) exactly when the confidence is strictly below the
    threshold; at the threshold itself the comparison is false and the call
    returns the category block of the full path. *)
Theorem threshold_passes_gate (pred_class : string) (conf : float)
    (env : gmap string float) :
  (CONF_THRESHOLD <? CONF_THRESHOLD)%float = false
  /\ (exists (severity : string) (alerts actions : list string),
        returned (recommend pred_class conf env)
        = Return (severity, alerts, actions)
        /\ (actions = retake_actions <-> (conf <? CONF_THRESHOLD)%float = true))
  /\ (exists (severity : string) (alerts extra : list string),
        returned (recommend pred_class CONF_THRESHOLD env)
        = Return (severity, alerts, block (branch_of pred_class) ++ extra)
        /\ forall a, In a alerts -> String.prefix "Low confidence" a = false).
Proof.
  split; [reflexivity|]. split.
  - eexists _, _, _. split; [apply recommend_returns|].
    destruct (conf <? CONF_THRESHOLD)%float; [done|].
    split; [|done]. intros Heq. exfalso.
    destruct (branch_of pred_class); cbv [block app retake_actions] in Heq;
      discriminate.
  - eexists _, _, _. split.
    + rewrite recommend_returns.
      change (CONF_THRESHOLD <? CONF_THRESHOLD)%float with false.
      reflexivity.
    + intros a Ha. apply in_app_or in Ha as [Ha|Ha].
      * unfold env_alerts, range_alerts in Ha.
        repeat (apply in_app_or in Ha as [Ha|Ha]);
          repeat case_match; simpl in Ha;
          (done || (destruct Ha as [<-|[]]; reflexivity)).
      * unfold quality_alerts in Ha.
        case_match; simpl in Ha;
          (done || (destruct Ha as [<-|[]]; reflexivity)).
Qed.

(** On floats the call is total: for every category, float confidence
    and snapshot of floats it returns a triple; no [KeyError] (the one
    exception the body could raise there, from [TARGETS[key]]) escapes. *)
Lemma recommend_total (pred_class : string) (conf : float)
    (env : gmap string float) :
  (exists (severity : string) (alerts actions : list string),
     returned (recommend pred_class conf env)
     = Return (severity, alerts, actions))
  /\ (forall e : exn, returned (recommend pred_class conf env) <> Raise e).
Proof.
  rewrite recommend_returns. split; [by eexists _, _, _|done].
Qed.

(** A guarded range check on a reading that can be written, followed by
    the rest of the body. *)
Lemma numeric_guarded_check_then {A : Type} (key unit_ : string)
    (rest : Numeric.py A) (s : Numeric.store) :
  is_Some (TARGETS !! key) ->
  (forall v, Numeric.st_env s !! key = Some v -> Numeric.printable v) ->
  (b ← Numeric.env_contains key;
   Numeric.when b (Numeric.check_range key unit_);; rest) s
  = rest (Numeric.Store (Numeric.st_env s)
            (Numeric.st_alerts s
               ++ numeric_range_alerts key unit_ (Numeric.st_env s))
            (Numeric.st_actions s)).
Proof.
  intros [[lo hi] Ht] Hprint. destruct s as [env al ac].
  unfold numeric_range_alerts, Numeric.check_range, Numeric.subscript.
  unfold mbind, Numeric.py_bind, Numeric.env_contains, Numeric.env_get.
  cbn [Numeric.st_env Numeric.st_alerts Numeric.st_actions] in *.
  rewrite Ht. cbn [Numeric.or_raise mret Numeric.py_ret].
  destruct (env !! key) as [v|] eqn:Hv; cbn; rewrite ?Hv.
  - destruct (Hprint v eq_refl) as [text Htext]. rewrite Htext.
    match goal with
    | |- context [Numeric.when ?b _] => destruct b
    end; cbn; [reflexivity|by rewrite app_nil_r].
  - by rewrite app_nil_r.
Qed.

(** The full path on numbers whose tracked readings can be written. *)
Lemma numeric_recommend_high (pred_class : string) (conf : Numeric.number)
    (env : gmap string Numeric.number) :
  Numeric.ltb conf (Numeric.PyFloat CONF_THRESHOLD) = false ->
  (forall key v, In key tracked_metrics -> env !! key = Some v ->
     Numeric.printable v) ->
  fst (Numeric.recommend pred_class conf env)
  = Numeric.Return
      (severity_of pred_class,
       numeric_env_alerts env
         ++ (if numeric_poor_quality env then [quality_alert] else []),
       block (branch_of pred_class)
         ++ (if numeric_poor_quality env then [quality_action] else [])).
Proof.
  intros Hgate Hprint. unfold Numeric.recommend, Numeric.recommend_body.
  rewrite Hgate.
  do 4 (rewrite numeric_guarded_check_then;
        [ cbn [Numeric.st_env Numeric.st_alerts Numeric.st_actions]
        | by eexists
        | cbn [Numeric.st_env]; intros v Hv;
          eapply Hprint; [|exact Hv]; cbv [tracked_metrics In]; tauto ]).
  unfold numeric_env_alerts, numeric_poor_quality, branch_of.
  unfold mbind, Numeric.py_bind, Numeric.env_get, Numeric.actions_extend,
    Numeric.read_alerts, Numeric.read_actions.
  destruct (pred_class =? "green_molds_disease")%string;
    [|destruct (pred_class =? "dry_bubble_disease")%string;
      [|destruct (pred_class =? "bacterial_blotch_disease")%string]];
    cbn [Numeric.st_env Numeric.st_alerts Numeric.st_actions app];
    (destruct (env !! "substrate_quality_score") as [q|];
     [destruct (Numeric.ltb q (Numeric.PyFloat 0.6))|]);
    cbn [Numeric.when Numeric.alerts_append Numeric.actions_append mret
         Numeric.py_ret Numeric.st_env Numeric.st_alerts Numeric.st_actions
         app block fst];
    rewrite ?app_nil_r, <- ?app_assoc; reflexivity.
Qed.

(** The short-circuit path on a confidence that converts. *)
Lemma numeric_recommend_low (pred_class : string) (conf : Numeric.number)
    (env : gmap string Numeric.number) (text : string) :
  Numeric.ltb conf (Numeric.PyFloat CONF_THRESHOLD) = true ->
  Numeric.format_2f_number conf = Some text ->
  fst (Numeric.recommend pred_class conf env)
  = Numeric.Return
      (severity_of pred_class, ["Low confidence (" +:+ text +:+ ")."],
       retake_actions).
Proof.
  intros Hgate Htext. unfold Numeric.recommend, Numeric.recommend_body.
  rewrite Hgate, Htext. reflexivity.
Qed.

(** On floats the engine on numbers is the engine on floats. *)
Lemma numeric_recommend_on_floats (pred_class : string) (conf : float)
    (env : gmap string float) :
  fst (Numeric.recommend pred_class (Numeric.PyFloat conf)
         (Numeric.PyFloat <$> env))
  = as_numeric_outcome (returned (recommend pred_class conf env)).
Proof.
  rewrite recommend_returns. cbn [as_numeric_outcome].
  destruct (conf <? CONF_THRESHOLD)%float eqn:Hgate.
  - by apply numeric_recommend_low.
  - rewrite numeric_recommend_high.
    + unfold numeric_env_alerts, numeric_range_alerts, numeric_poor_quality,
        env_alerts, range_alerts, quality_alerts, quality_actions,
        poor_quality, out_of_range.
      rewrite !lookup_fmap.
      by repeat (match goal with
                 | |- context [env !! ?k] => destruct (env !! k)
                 end; cbn [fmap option_fmap option_map]).
    + exact Hgate.
    + intros key v _ Hv. rewrite lookup_fmap in Hv.
      destruct (env !! key); [|discriminate].
      injection Hv as <-. by eexists.
Qed.

(** C8, as amended. On Python's [int]s and [float]s the call returns a
    triple and raises nothing whenever the confidence is a float or an int
    that converts to float, and every tracked reading is a float or an int of
    at most 4300 digits. *)
Theorem recommend_total_on_numbers (pred_class : string)
    (conf : Numeric.number) (env : gmap string Numeric.number) :
  Numeric.convertible conf ->
  (forall key v, In key tracked_metrics -> env !! key = Some v ->
     Numeric.printable v) ->
  (exists (severity : string) (alerts actions : list string),
     fst (Numeric.recommend pred_class conf env)
     = Numeric.Return (severity, alerts, actions))
  /\ (forall e : Numeric.exn,
        fst (Numeric.recommend pred_class conf env) <> Numeric.Raise e).
Proof.
  intros [text Htext] Hprint.
  destruct (Numeric.ltb conf (Numeric.PyFloat CONF_THRESHOLD)) eqn:Hgate.
  - rewrite (numeric_recommend_low _ _ _ text) by done.
    split; [by eexists _, _, _|done].
  - rewrite numeric_recommend_high by done.
    split; [by eexists _, _, _|done].
Qed.

(** C8 as first stated does not hold on every number: an [int]
    confidence of minus ten to the 400 is below the threshold and too large
    to convert, so the low-confidence alert cannot be formatted and the call
    raises [OverflowError]; an [int] temperature of ten to the 4300 is out of
    range and has 4301 digits, so its alert cannot be written and the call
    raises [ValueError]. *)
Lemma recommend_raises_on_huge_int :
  fst (Numeric.recommend "healthy_mushroom" (Numeric.PyInt (- 10 ^ 400)) ∅)
  = Numeric.Raise Numeric.OverflowError
  /\ fst (Numeric.recommend "healthy_mushroom" (Numeric.PyFloat 0.9)
            {[ "temp_c" := Numeric.PyInt (10 ^ 4300) ]})
     = Numeric.Raise Numeric.ValueError.
Proof. split; by vm_compute. Qed.

(** An int confidence of one and int readings. *)
Lemma recommend_total_on_numbers_witness :
  Numeric.convertible (Numeric.PyInt 1)
  /\ (forall key v, In key tracked_metrics ->
        ({[ "temp_c" := Numeric.PyInt 35; "light_lux" := Numeric.PyFloat 100 ]}
           : gmap string Numeric.number) !! key = Some v ->
        Numeric.printable v)
  /\ exists (severity : string) (alerts actions : list string),
       fst (Numeric.recommend "healthy_mushroom" (Numeric.PyInt 1)
              {[ "temp_c" := Numeric.PyInt 35;
                 "light_lux" := Numeric.PyFloat 100 ]})
       = Numeric.Return (severity, alerts, actions).
Proof.
  assert (Numeric.convertible (Numeric.PyInt 1)) as Hconv
    by (vm_compute; eauto).
  assert (forall key v, In key tracked_metrics ->
            ({[ "temp_c" := Numeric.PyInt 35;
                "light_lux" := Numeric.PyFloat 100 ]}
               : gmap string Numeric.number) !! key = Some v ->
            Numeric.printable v) as Hprint.
  { intros key v Hkey Hv. cbv [tracked_metrics In] in Hkey.
    destruct Hkey as [<-|[<-|[<-|[<-|[]]]]]; vm_compute in Hv;
      try discriminate; injection Hv as <-; vm_compute; eauto. }
  split; [exact Hconv|]. split; [exact Hprint|].
  apply (recommend_total_on_numbers "healthy_mushroom" (Numeric.PyInt 1)
           {[ "temp_c" := Numeric.PyInt 35;
              "light_lux" := Numeric.PyFloat 100 ]} Hconv Hprint).
Defined.

(** C9. The call leaves the caller's environment dictionary as it found
    it. *)
Theorem env_not_mutated (pred_class : string) (conf : float)
    (env : gmap string float) :
  env_after (recommend pred_class conf env) = env.
Proof. unfold env_after. by on_either_path conf. Qed.

(** C10. Two snapshots that agree on the five recognized keys give the
    same result for the same category and confidence, whatever other keys
    they hold. *)
Theorem depends_on_recognized_keys (pred_class : string) (conf : float)
    (env1 env2 : gmap string float) :
  (forall key, In key recognized_keys -> env1 !! key = env2 !! key) ->
  returned (recommend pred_class conf env1)
  = returned (recommend pred_class conf env2).
Proof.
  intros Hagree. rewrite !recommend_returns.
  destruct (conf <? CONF_THRESHOLD)%float; [reflexivity|].
  unfold env_alerts, range_alerts, quality_alerts, quality_actions,
    poor_quality.
  rewrite !(Hagree _) by (cbv; tauto). reflexivity.
Qed.

(** C2, as amended. When the confidence gate passes, a tracked metric that
    is present in the snapshot is named by exactly one alert if and only if
    its value is strictly below the lower bound or strictly above the upper
    bound, and by no alert otherwise; a value equal to a bound gives no
    alert, and a metric that is absent gives no alert. *)
Theorem range_check_alerts (pred_class : string) (conf : float)
    (env : gmap string float) (key : string) :
  (conf <? CONF_THRESHOLD)%float = false ->
  In key tracked_metrics ->
  exists (severity : string) (alerts actions : list string) (lo hi : float),
    returned (recommend pred_class conf env)
    = Return (severity, alerts, actions)
    /\ TARGETS !! key = Some (lo, hi)
    /\ match env !! key with
       | Some v =>
           (alerts_naming key alerts = 1
            <-> (v <? lo)%float = true \/ gtb v hi = true)
           /\ (alerts_naming key alerts = 0
               <-> ~ ((v <? lo)%float = true \/ gtb v hi = true))
           /\ ((v =? lo)%float = true \/ (v =? hi)%float = true ->
               alerts_naming key alerts = 0)
       | None => alerts_naming key alerts = 0
       end.
Proof.
  intros Hgate Hk.
  assert (exists lo hi, TARGETS !! key = Some (lo, hi)
                        /\ out_of_range key lo = false
                        /\ out_of_range key hi = false
                        /\ (forall v, (v =? lo)%float = true -> v = lo)
                        /\ (forall v, (v =? hi)%float = true -> v = hi))
    as (lo & hi & Ht & Hlo & Hhi & Heqlo & Heqhi).
  { cbv in Hk.
    destruct Hk as [<-|[<-|[<-|[<-|[]]]]]; eexists _, _;
      (split; [reflexivity|]); (split; [reflexivity|]);
      (split; [reflexivity|]);
      split; intros v; eapply FloatFacts.eqb_finite_eq; vm_compute;
      reflexivity. }
  eexists _, _, _, lo, hi. split; [apply recommend_returns|].
  split; [exact Ht|]. rewrite Hgate, alerts_naming_full_path by done.
  destruct (env !! key) as [v|]; [|reflexivity].
  split; [|split].
  - unfold out_of_range, gtb. rewrite Ht.
    destruct (v <? lo)%float, (hi <? v)%float; cbn; intuition discriminate.
  - unfold out_of_range, gtb. rewrite Ht.
    destruct (v <? lo)%float, (hi <? v)%float; cbn; intuition discriminate.
  - intros [->%Heqlo| ->%Heqhi]; [by rewrite Hlo|by rewrite Hhi].
Qed.

(** C2 as first stated does not hold below the threshold: a temperature
    of 35 degrees is out of range, and the call at confidence 0.5 returns
    only the low-confidence alert, so no alert names [temp_c]. *)
Lemma range_alert_absent_below_threshold :
  In "temp_c" tracked_metrics
  /\ ({[ "temp_c" := 35.0%float ]} : gmap string float) !! "temp_c"
     = Some 35.0%float
  /\ TARGETS !! "temp_c" = Some (20.0, 28.0)%float
  /\ gtb 35.0 28.0 = true
  /\ (0.5 <? CONF_THRESHOLD)%float = true
  /\ returned (recommend "healthy_mushroom" 0.5 {[ "temp_c" := 35.0%float ]})
     = Return ("none", ["Low confidence (0.50)."], retake_actions)
  /\ alerts_naming "temp_c" ["Low confidence (0.50)."] = 0.
Proof.
  split; [cbv; tauto|]. by vm_compute.
Qed.

(** C4. When the gate passes, exactly one of the four branches fires: the
    conditions are exhaustive and exclusive, the actions open with the block
    of the branch that fires, the blocks of the other branches contribute
    nothing, and every category other than the three named diseases, a
    healthy one or one without a severity entry included, takes the generic
    branch. *)
Theorem category_dispatch (pred_class : string) (conf : float)
    (env : gmap string float) :
  (conf <? CONF_THRESHOLD)%float = false ->
  exists (severity : string) (alerts actions : list string) (b : branch),
    returned (recommend pred_class conf env)
    = Return (severity, alerts, actions)
    /\ fires b pred_class
    /\ (forall b', fires b' pred_class -> b' = b)
    /\ (exists extra,
          actions = block b ++ extra
          /\ (extra = [] \/ extra = [quality_action]))
    /\ (forall b' a, b' <> b -> In a (block b') -> ~ In a actions)
    /\ (pred_class <> "green_molds_disease"
        /\ pred_class <> "dry_bubble_disease"
        /\ pred_class <> "bacterial_blotch_disease" -> b = Generic)
    /\ (SEVERITY !! pred_class = Some "none" \/ SEVERITY !! pred_class = None ->
        b = Generic).
Proof.
  intros Hgate. eexists _, _, _, (branch_of pred_class).
  split; [apply recommend_returns|]. rewrite Hgate.
  split; [by apply branch_of_fires|].
  split; [intros b' Hb'; by apply branch_of_fires|].
  split; [|split; [|split]].
  - exists (quality_actions env). split; [reflexivity|].
    unfold quality_actions. destruct (poor_quality env); auto.
  - intros b' a Hne Hb' [Ha|Ha]%in_app_or.
    + apply Hne. eapply blocks_disjoint; eassumption.
    + unfold quality_actions in Ha. destruct (poor_quality env); [|done].
      destruct Ha as [<-|[]]. by apply (quality_action_foreign b').
  - intros Hother. symmetry. by apply branch_of_fires.
  - intros Hsev. symmetry. apply branch_of_fires.
    repeat split; intros ->; vm_compute in Hsev;
      destruct Hsev; discriminate.
Qed.

(** C6. With a confidence at or above the threshold, every tracked
    reading that is present inside its target band, and the substrate
    quality score absent or at least 0.6, the call returns no alert and
    exactly the action block of the category's branch. *)
Theorem nominal_conditions (pred_class : string) (conf : float)
    (env : gmap string float) :
  (CONF_THRESHOLD <=? conf)%float = true ->
  readings_within_range env = true ->
  quality_acceptable env = true ->
  exists (severity : string) (b : branch),
    fires b pred_class
    /\ returned (recommend pred_class conf env)
       = Return (severity, [], block b).
Proof.
  intros Hconf Hrange Hquality.
  exists (severity_of pred_class), (branch_of pred_class).
  split; [by apply branch_of_fires|].
  rewrite recommend_returns, (FloatFacts.leb_not_gt _ _ Hconf).
  assert (quality_alerts env = [] /\ quality_actions env = []) as [-> ->].
  { unfold quality_alerts, quality_actions, poor_quality.
    unfold quality_acceptable in Hquality.
    destruct (env !! "substrate_quality_score") as [q|]; [|done].
    by rewrite (FloatFacts.leb_not_gt _ _ Hquality). }
  assert (env_alerts env = []) as ->; [|by rewrite !app_nil_r].
  unfold readings_within_range, tracked_metrics in Hrange.
  cbn [forallb] in Hrange.
  repeat (apply andb_true_iff in Hrange as [?Hk Hrange]).
  unfold env_alerts, range_alerts.
  repeat match goal with
         | H : match env !! ?k with _ => _ end = true |- _ =>
             destruct (env !! k); [apply within_range_not_out in H; rewrite H|];
             clear H
         end.
  all: by repeat case_match.
Qed.

(** C7. On the full path the alerts are the range alerts followed by the
    quality alert, and the actions are the category block followed by the
    substrate-replacement action; the two quality items come together or
    not at all. *)
Theorem generation_order (pred_class : string) (conf : float)
    (env : gmap string float) :
  (conf <? CONF_THRESHOLD)%float = false ->
  exists (severity : string) (range_part quality_part extra : list string)
         (b : branch),
    returned (recommend pred_class conf env)
    = Return (severity, range_part ++ quality_part, block b ++ extra)
    /\ fires b pred_class
    /\ Forall (fun a => is_range_alert a = true) range_part
    /\ is_range_alert quality_alert = false
    /\ ~ In quality_action (block b)
    /\ ((quality_part = [] /\ extra = [])
        \/ (quality_part = [quality_alert] /\ extra = [quality_action])).
Proof.
  intros Hgate.
  exists (severity_of pred_class), (env_alerts env), (quality_alerts env),
    (quality_actions env), (branch_of pred_class).
  split; [by rewrite recommend_returns, Hgate|].
  split; [by apply branch_of_fires|].
  split; [apply env_alerts_are_range_alerts|].
  split; [reflexivity|]. split; [apply quality_action_foreign|].
  unfold quality_alerts, quality_actions. destruct (poor_quality env); auto.
Qed.

(** ** The claims at concrete inputs *)


(** Bacterial blotch at confidence 0.80 with a temperature of 35 degrees:
    one alert names [temp_c]. *)
Lemma range_check_alerts_witness :
  (0.80 <? CONF_THRESHOLD)%float = false
  /\ In "temp_c" tracked_metrics
  /\ exists (severity : string) (alerts actions : list string),
       returned
         (recommend "bacterial_blotch_disease" 0.80
            {[ "temp_c" := 35.0%float; "substrate_quality_score" := 0.4%float ]})
       = Return (severity, alerts, actions)
       /\ alerts_naming "temp_c" alerts = 1.
Proof.
  split; [reflexivity|].
  assert (In "temp_c" tracked_metrics) as Hkey by (left; reflexivity).
  split; [exact Hkey|].
  destruct (range_check_alerts "bacterial_blotch_disease" 0.80%float
              {[ "temp_c" := 35.0%float; "substrate_quality_score" := 0.4%float ]}
              "temp_c" eq_refl Hkey)
    as (severity & alerts & actions & lo & hi & Hret & Htarget & Hcount).
  exists severity, alerts, actions. split; [exact Hret|].
  vm_compute in Htarget. injection Htarget as <- <-.
  change (({[ "temp_c" := 35.0%float; "substrate_quality_score" := 0.4%float ]}
             : gmap string float) !! "temp_c")
    with (Some 35.0%float) in Hcount.
  destruct Hcount as [Hone _]. apply Hone. right. reflexivity.
Defined.

(** Green molds at confidence 0.95 with no readings: the green-molds branch
    fires. *)
Lemma category_dispatch_witness :
  (0.95 <? CONF_THRESHOLD)%float = false
  /\ exists (severity : string) (alerts actions : list string) (b : branch),
       returned (recommend "green_molds_disease" 0.95 ∅)
       = Return (severity, alerts, actions)
       /\ fires b "green_molds_disease"
       /\ exists extra, actions = block b ++ extra.
Proof.
  split; [reflexivity|].
  destruct (category_dispatch "green_molds_disease" 0.95%float ∅ eq_refl)
    as (severity & alerts & actions & b & Hret & Hfires & _
        & (extra & Hactions & _) & _).
  exists severity, alerts, actions, b.
  split; [exact Hret|]. split; [exact Hfires|]. exists extra. exact Hactions.
Defined.

(** Green molds at confidence 0.95, all readings nominal. *)
Lemma nominal_conditions_witness :
  (CONF_THRESHOLD <=? 0.95)%float = true
  /\ readings_within_range
       {[ "temp_c" := 24.0%float; "humidity_rh" := 90.0%float;
          "substrate_quality_score" := 0.8%float ]} = true
  /\ quality_acceptable
       {[ "temp_c" := 24.0%float; "humidity_rh" := 90.0%float;
          "substrate_quality_score" := 0.8%float ]} = true
  /\ exists (severity : string) (b : branch),
       fires b "green_molds_disease"
       /\ returned
            (recommend "green_molds_disease" 0.95
               {[ "temp_c" := 24.0%float; "humidity_rh" := 90.0%float;
                  "substrate_quality_score" := 0.8%float ]})
          = Return (severity, [], block b).
Proof.
  split; [reflexivity|]. split; [reflexivity|]. split; [reflexivity|].
  apply (nominal_conditions "green_molds_disease" 0.95%float
           {[ "temp_c" := 24.0%float; "humidity_rh" := 90.0%float;
              "substrate_quality_score" := 0.8%float ]});
    reflexivity.
Defined.

(** Bacterial blotch at confidence 0.80, hot chamber and poor substrate:
    the temperature alert comes before the quality alert and the blotch
    block before the substrate action. *)
Lemma generation_order_witness :
  (0.80 <? CONF_THRESHOLD)%float = false
  /\ exists (severity : string) (range_part quality_part extra : list string)
            (b : branch),
       returned
         (recommend "bacterial_blotch_disease" 0.80
            {[ "temp_c" := 35.0%float; "substrate_quality_score" := 0.4%float ]})
       = Return (severity, range_part ++ quality_part, block b ++ extra)
       /\ Forall (fun a => is_range_alert a = true) range_part
       /\ ((quality_part = [] /\ extra = [])
           \/ (quality_part = [quality_alert] /\ extra = [quality_action])).
Proof.
  split; [reflexivity|].
  destruct (generation_order "bacterial_blotch_disease" 0.80%float
              {[ "temp_c" := 35.0%float; "substrate_quality_score" := 0.4%float ]}
              eq_refl)
    as (severity & range_part & quality_part & extra & b & Hret & _ & Hrange
        & _ & _ & Hquality).
  exists severity, range_part, quality_part, extra, b.
  split; [exact Hret|]. split; [exact Hrange|exact Hquality].
Defined.

(** A snapshot and the same snapshot with a key the engine does not know. *)
Lemma depends_on_recognized_keys_witness :
  (forall key, In key recognized_keys ->
     ({[ "temp_c" := 35.0%float ]} : gmap string float) !! key
     = ({[ "temp_c" := 35.0%float; "co2_ppm" := 900.0%float ]}
         : gmap string float) !! key)
  /\ returned (recommend "dry_bubble_disease" 0.9 {[ "temp_c" := 35.0%float ]})
     = returned
         (recommend "dry_bubble_disease" 0.9
            {[ "temp_c" := 35.0%float; "co2_ppm" := 900.0%float ]}).
Proof.
  assert (forall key, In key recognized_keys ->
            ({[ "temp_c" := 35.0%float ]} : gmap string float) !! key
            = ({[ "temp_c" := 35.0%float; "co2_ppm" := 900.0%float ]}
                : gmap string float) !! key) as Hagree.
  { intros key Hkey. cbv [recognized_keys tracked_metrics app In] in Hkey.
    destruct Hkey as [<-|[<-|[<-|[<-|[<-|[]]]]]]; reflexivity. }
  split; [exact Hagree|].
  apply (depends_on_recognized_keys "dry_bubble_disease" 0.9%float
           {[ "temp_c" := 35.0%float ]}
           {[ "temp_c" := 35.0%float; "co2_ppm" := 900.0%float ]} Hagree).
Defined.

(** ** The two formatters and the end-to-end scenarios, run *)

Example format_2f_samples :
  map format_2f [0.4; 0.125; 0.375; 0.695; -0.001; 12345.678; neg_infinity]%float
  = ["0.40"; "0.12"; "0.38"; "0.69"; "-0.00"; "12345.68"; "-inf"].
Proof. by vm_compute. Qed.

Example float_repr_samples :
  map float_repr
    [35.0; 20.0; 300.0; 0.1; 27.95; -2.5; 1e16; 1e15; 0.0001; 0.00001;
     0.30000000000000004; 5e-324; infinity]%float
  = ["35.0"; "20.0"; "300.0"; "0.1"; "27.95"; "-2.5"; "1e+16";
     "1000000000000000.0"; "0.0001"; "1e-05"; "0.30000000000000004";
     "5e-324"; "inf"].
Proof. by vm_compute. Qed.


Example scenario_green_molds :
  returned (recommend "green_molds_disease" 0.95 ∅)
  = Return
      ("high", [],
       [ "HIGH severity: isolate/remove contaminated bag immediately to prevent spread.";
         "Sterilize tools and nearby surfaces.";
         "Reduce overly-wet conditions; increase fresh-air exchange." ]).
Proof. by vm_compute. Qed.

Example scenario_low_confidence :
  returned (recommend "healthy_mushroom" 0.40 ∅)
  = Return
      ("none", ["Low confidence (0.40)."],
       [ "Retake photo with better focus and lighting; keep subject centered.";
         "If symptoms persist, isolate and monitor the bag/mushroom." ]).
Proof. by vm_compute. Qed.

Example scenario_blotch_hot_poor_substrate :
  returned
    (recommend "bacterial_blotch_disease" 0.80
       {[ "temp_c" := 35.0%float; "substrate_quality_score" := 0.4%float ]})
  = Return
      ("moderate",
       [ "temp_c out of range: 35.0°C (target 20.0-28.0°C)";
         "Substrate quality flagged as poor (score < 0.6)." ],
       [ "MODERATE severity: reduce surface moisture (avoid water droplets on caps).";
         "Increase ventilation; avoid overcrowding.";
         "Sanitize area to reduce bacterial spread.";
         "Consider replacing/refreshing substrate and reviewing sterilization/pasteurization." ]).
Proof. by vm_compute. Qed.

(** Readings on a bound raise no alert; a NaN reading compares false both
    ways and raises none either. *)
Example scenario_bounds_inclusive :
  returned
    (recommend "healthy_mushroom" CONF_THRESHOLD
       {[ "temp_c" := 20.0%float; "humidity_rh" := 95.0%float;
          "light_lux" := nan; "substrate_quality_score" := 0.6%float ]})
  = Return
      ("none", [],
       [ "No disease detected: continue monitoring.";
         "Maintain chamber conditions within target ranges." ]).
Proof. by vm_compute. Qed.

(** ** Further properties of the rule engine *)

(** What [SEVERITY] holds, key by key. *)
Lemma SEVERITY_lookup (pred_class s : string) :
  SEVERITY !! pred_class = Some s <->
  (pred_class = "bacterial_blotch_disease" /\ s = "moderate")
  \/ (pred_class = "dry_bubble_disease" /\ s = "moderate")
  \/ (pred_class = "green_molds_disease" /\ s = "high")
  \/ (pred_class = "healthy_fruiting_bag" /\ s = "none")
  \/ (pred_class = "healthy_mushroom" /\ s = "none").
Proof.
  unfold SEVERITY.
  rewrite !lookup_insert_Some, lookup_singleton_Some.
  split.
  - intuition (subst; auto 10).
  - intros [[-> ->]|[[-> ->]|[[-> ->]|[[-> ->]|[-> ->]]]]];
      repeat (first [left; split; [reflexivity|reflexivity]
                    |right; split; [discriminate|]]);
      by split.
Qed.

(** X1. The severity returned is one of the four ratings. *)
Theorem severity_is_a_rating (pred_class : string) (conf : float)
    (env : gmap string float) :
  exists (severity : string) (alerts actions : list string),
    returned (recommend pred_class conf env)
    = Return (severity, alerts, actions)
    /\ In severity severities.
Proof.
  eexists _, _, _. split; [apply recommend_returns|].
  unfold severity_of.
  destruct (SEVERITY !! pred_class) as [s|] eqn:Hs; [|cbv; tauto].
  apply SEVERITY_lookup in Hs. cbv [severities In].
  intuition (subst; auto).
Qed.

(** Severity and dispatch agree, category by category. *)
Lemma category_table (pred_class : string) :
  (severity_of pred_class = "high" /\ branch_of pred_class = GreenMolds)
  \/ (severity_of pred_class = "moderate"
      /\ (branch_of pred_class = DryBubble
          \/ branch_of pred_class = BacterialBlotch))
  \/ ((severity_of pred_class = "none" \/ severity_of pred_class = "unknown")
      /\ branch_of pred_class = Generic).
Proof.
  unfold severity_of, branch_of.
  destruct (String.eqb_spec pred_class "green_molds_disease") as [->|Hg];
    [left; by vm_compute|].
  destruct (String.eqb_spec pred_class "dry_bubble_disease") as [->|Hd];
    [right; left; split; [by vm_compute|by left]|].
  destruct (String.eqb_spec pred_class "bacterial_blotch_disease") as [->|Hb];
    [right; left; split; [by vm_compute|by right]|].
  right; right. split; [|reflexivity].
  destruct (SEVERITY !! pred_class) as [s|] eqn:Hs; [|by right].
  apply SEVERITY_lookup in Hs. left. intuition congruence.
Qed.

(** X2. On the full path the first action speaks of the severity that is
    returned: it opens with "HIGH severity" exactly when the severity is
    "high", with "MODERATE severity" exactly when it is "moderate", and it is
    the no-disease instruction exactly when the severity is "none" or
    "unknown". *)
Theorem first_action_matches_severity (pred_class : string) (conf : float)
    (env : gmap string float) :
  (conf <? CONF_THRESHOLD)%float = false ->
  exists (severity first : string) (alerts rest : list string),
    returned (recommend pred_class conf env)
    = Return (severity, alerts, first :: rest)
    /\ (severity = "high" <-> String.prefix "HIGH severity" first = true)
    /\ (severity = "moderate"
        <-> String.prefix "MODERATE severity" first = true)
    /\ (severity = "none" \/ severity = "unknown"
        <-> first = "No disease detected: continue monitoring.").
Proof.
  intros Hgate.
  assert (exists first tail,
            block (branch_of pred_class) = first :: tail
            /\ (severity_of pred_class = "high"
                <-> String.prefix "HIGH severity" first = true)
            /\ (severity_of pred_class = "moderate"
                <-> String.prefix "MODERATE severity" first = true)
            /\ (severity_of pred_class = "none"
                \/ severity_of pred_class = "unknown"
                <-> first = "No disease detected: continue monitoring."))
    as (first & tail & Hblock & Hhigh & Hmod & Hnone).
  { destruct (category_table pred_class)
      as [[-> ->]|[[-> [->| ->]]|[[->| ->] ->]]];
      eexists _, _; (split; [reflexivity|]);
      cbn; intuition discriminate. }
  exists (severity_of pred_class), first, (env_alerts env ++ quality_alerts env),
    (tail ++ quality_actions env).
  split; [|done].
  by rewrite recommend_returns, Hgate, Hblock.
Qed.

(** X3. The alerts never depend on the category. *)
Theorem alerts_ignore_category (pred_class1 pred_class2 : string)
    (conf : float) (env : gmap string float) :
  exists (severity1 severity2 : string) (alerts actions1 actions2 : list string),
    returned (recommend pred_class1 conf env)
    = Return (severity1, alerts, actions1)
    /\ returned (recommend pred_class2 conf env)
       = Return (severity2, alerts, actions2).
Proof.
  eexists _, _, _, _, _. split; apply recommend_returns.
Qed.

(** X4. The actions never depend on the four tracked readings: two snapshots
    with the same substrate quality entry give the same actions. *)
Theorem actions_ignore_readings (pred_class : string) (conf : float)
    (env1 env2 : gmap string float) :
  env1 !! "substrate_quality_score" = env2 !! "substrate_quality_score" ->
  exists (severity : string) (alerts1 alerts2 actions : list string),
    returned (recommend pred_class conf env1)
    = Return (severity, alerts1, actions)
    /\ returned (recommend pred_class conf env2)
       = Return (severity, alerts2, actions).
Proof.
  intros Hq. eexists _, _, _, _.
  split; [apply recommend_returns|]. rewrite recommend_returns.
  unfold quality_actions, poor_quality. by rewrite Hq.
Qed.

(** X5. Once the gate is passed the confidence plays no further part: two
    confidences that are not below the threshold give the same result. *)
Theorem passing_confidence_irrelevant (pred_class : string)
    (conf1 conf2 : float) (env : gmap string float) :
  (conf1 <? CONF_THRESHOLD)%float = false ->
  (conf2 <? CONF_THRESHOLD)%float = false ->
  returned (recommend pred_class conf1 env)
  = returned (recommend pred_class conf2 env).
Proof.
  intros H1 H2. by rewrite !recommend_returns, H1, H2.
Qed.

(** A NaN is below nothing and above nothing. *)
Lemma nan_unordered (x y : float) :
  is_nan x = true -> (x <? y)%float = false /\ (y <? x)%float = false.
Proof.
  unfold is_nan. rewrite FloatAxioms.eqb_spec, !ltb_spec.
  unfold SFeqb, SFltb. intros Hnan.
  assert (Prim2SF x = S754_nan) as ->.
  { destruct (Prim2SF x) as [s|[|]| |[|] m e]; try done;
      cbn [SFcompare] in Hnan;
      rewrite Z.compare_refl in Hnan;
      change PosDef.Pos.compare_cont with Pos.compare_cont in Hnan;
      fold (Pos.compare m m) in Hnan;
      by rewrite Pos.compare_refl in Hnan. }
  split; [reflexivity|]. by destruct (Prim2SF y).
Qed.

(** X6. A NaN confidence is not below the threshold: the call takes the full
    path and returns what it returns for a confidence of one. *)
Theorem nan_confidence_passes_gate (pred_class : string) (conf : float)
    (env : gmap string float) :
  is_nan conf = true ->
  returned (recommend pred_class conf env)
  = returned (recommend pred_class 1 env).
Proof.
  intros Hnan. rewrite !recommend_returns.
  destruct (nan_unordered conf CONF_THRESHOLD Hnan) as [-> _].
  reflexivity.
Qed.

(** The quality alert is not among the range alerts. *)
Lemma quality_alert_not_range (env : gmap string float) :
  ~ In quality_alert (env_alerts env).
Proof.
  intros Hin. pose proof (env_alerts_are_range_alerts env) as Hall.
  rewrite List.Forall_forall in Hall. apply Hall in Hin. discriminate.
Qed.

(** The short-circuit result holds neither the quality alert nor the
    substrate action. *)
Lemma low_path_has_no_quality (text : string) :
  ~ In quality_alert ["Low confidence (" +:+ text +:+ ")."]
  /\ ~ In quality_action retake_actions.
Proof. split; cbv; intuition discriminate. Qed.

(** X7. A NaN reading raises nothing: no alert names its metric, and a NaN
    quality score brings neither the quality alert nor the substrate
    action. *)
Theorem nan_reading_raises_no_alert (pred_class : string) (conf : float)
    (env : gmap string float) (key : string) (v : float) :
  is_nan v = true ->
  env !! key = Some v ->
  exists (severity : string) (alerts actions : list string),
    returned (recommend pred_class conf env)
    = Return (severity, alerts, actions)
    /\ (In key tracked_metrics -> alerts_naming key alerts = 0)
    /\ (key = "substrate_quality_score" ->
        ~ In quality_alert alerts /\ ~ In quality_action actions).
Proof.
  intros Hnan Hv. eexists _, _, _. split; [apply recommend_returns|].
  destruct (conf <? CONF_THRESHOLD)%float.
  { split; [|intros _; apply low_path_has_no_quality].
    intros Hk. cbv in Hk.
    destruct Hk as [<-|[<-|[<-|[<-|[]]]]]; reflexivity. }
  split.
  - intros Hk. rewrite alerts_naming_full_path, Hv by done.
    unfold out_of_range. destruct (TARGETS !! key) as [[lo hi]|]; [|done].
    by destruct (nan_unordered v lo Hnan) as [-> _],
                (nan_unordered v hi Hnan) as [_ ->].
  - intros ->.
    assert (quality_alerts env = [] /\ quality_actions env = []) as [-> ->].
    { unfold quality_alerts, quality_actions, poor_quality. rewrite Hv.
      by destruct (nan_unordered v 0.6 Hnan) as [-> _]. }
    rewrite !app_nil_r. split.
    + apply quality_alert_not_range.
    + apply quality_action_foreign.
Qed.

(** X8. The quality alert and the substrate action are returned exactly when
    the gate is passed and the snapshot holds a quality score below 0.6. *)
Theorem quality_heuristic_fires_iff (pred_class : string) (conf : float)
    (env : gmap string float) :
  exists (severity : string) (alerts actions : list string),
    returned (recommend pred_class conf env)
    = Return (severity, alerts, actions)
    /\ (In quality_alert alerts
        <-> (conf <? CONF_THRESHOLD)%float = false
            /\ exists q, env !! "substrate_quality_score" = Some q
                         /\ (q <? 0.6)%float = true)
    /\ (In quality_action actions <-> In quality_alert alerts).
Proof.
  eexists _, _, _. split; [apply recommend_returns|].
  destruct (conf <? CONF_THRESHOLD)%float.
  { destruct (low_path_has_no_quality (format_2f conf)) as [Halert Haction].
    split.
    - split; [intros Hin; by destruct (Halert Hin)|].
      intros [? _]. discriminate.
    - split; intros Hin; [by destruct (Haction Hin)|by destruct (Halert Hin)]. }
  assert (forall l, In quality_alert (env_alerts env ++ l)
                    <-> In quality_alert l) as Halerts.
  { intros l. rewrite in_app_iff. split; [|tauto].
    intros [Hin|Hin]; [|done]. by apply quality_alert_not_range in Hin. }
  assert (forall l, In quality_action (block (branch_of pred_class) ++ l)
                    <-> In quality_action l) as Hactions.
  { intros l. rewrite in_app_iff. split; [|tauto].
    intros [Hin|Hin]; [|done]. by apply quality_action_foreign in Hin. }
  rewrite Halerts, Hactions.
  unfold quality_alerts, quality_actions, poor_quality.
  destruct (env !! "substrate_quality_score") as [q|].
  - destruct (q <? 0.6)%float eqn:Hq.
    + split; [|cbn; tauto]. split; [eauto|cbn; tauto].
    + split; [|cbn; tauto]. split; [intros []|].
      intros [_ (q' & [= <-] & Hq')]. congruence.
  - split; [|cbn; tauto]. split; [intros []|].
    intros [_ (q' & [=] & _)].
Qed.

(** What a range check contributes: nothing, or the one message of its
    metric, built from the reading and the target band. *)
Lemma in_range_alerts (key a : string) (env : gmap string float) :
  In a (range_alerts key (unit_of key) env)
  <-> exists v lo hi,
        env !! key = Some v /\ TARGETS !! key = Some (lo, hi)
        /\ out_of_range key v = true /\ a = range_message key v lo hi.
Proof.
  unfold range_alerts.
  destruct (env !! key) as [v|]; [|split; [done|by intros (?&?&?&?&_)]].
  destruct (TARGETS !! key) as [[lo hi]|];
    [|split; [done|by intros (?&?&?&_&?&_)]].
  destruct (out_of_range key v) eqn:Hout.
  - split.
    + intros [<-|[]]. by exists v, lo, hi.
    + intros (v' & lo' & hi' & [= <-] & [= <- <-] & _ & ->). by left.
  - split; [done|]. intros (v' & lo' & hi' & [= <-] & _ & Hout' & _).
    congruence.
Qed.

(** X9. On the full path the alerts other than the quality alert are exactly
    the messages of the tracked readings that are present and out of range,
    each carrying the metric, the reading and the target band. *)
Theorem range_alert_texts (pred_class : string) (conf : float)
    (env : gmap string float) :
  (conf <? CONF_THRESHOLD)%float = false ->
  exists (severity : string) (alerts actions : list string),
    returned (recommend pred_class conf env)
    = Return (severity, alerts, actions)
    /\ forall a,
         In a alerts /\ a <> quality_alert
         <-> exists key v lo hi,
               In key tracked_metrics
               /\ env !! key = Some v
               /\ TARGETS !! key = Some (lo, hi)
               /\ ((v <? lo)%float = true \/ gtb v hi = true)
               /\ a = range_message key v lo hi.
Proof.
  intros Hgate. eexists _, _, _. split; [apply recommend_returns|].
  rewrite Hgate. intros a.
  assert (In a (env_alerts env)
          <-> exists key v lo hi,
                In key tracked_metrics /\ env !! key = Some v
                /\ TARGETS !! key = Some (lo, hi)
                /\ out_of_range key v = true
                /\ a = range_message key v lo hi) as Hrange.
  { unfold env_alerts.
    change "°C" with (unit_of "temp_c").
    change " lux" with (unit_of "light_lux").
    change (range_alerts "humidity_rh" "%")
      with (range_alerts "humidity_rh" (unit_of "humidity_rh")).
    change (range_alerts "substrate_moisture_pct" "%")
      with (range_alerts "substrate_moisture_pct"
              (unit_of "substrate_moisture_pct")).
    rewrite !in_app_iff, !in_range_alerts. split.
    - intros [H|[H|[H|H]]]; destruct H as (v & lo & hi & ?);
        eexists _, v, lo, hi; (split; [|eassumption]); cbv; tauto.
    - intros (key & v & lo & hi & Hk & H). cbv in Hk.
      destruct Hk as [<-|[<-|[<-|[<-|[]]]]]; eauto 10. }
  assert (forall key v lo hi,
            TARGETS !! key = Some (lo, hi) ->
            out_of_range key v = true
            <-> (v <? lo)%float = true \/ gtb v hi = true) as Hout.
  { intros key v lo hi Ht. unfold out_of_range, gtb. rewrite Ht.
    rewrite orb_true_iff. reflexivity. }
  rewrite in_app_iff. split.
  - intros [[Hin|Hin] Hne].
    + apply Hrange in Hin as (key & v & lo & hi & Hk & Hv & Ht & Ho & ->).
      exists key, v, lo, hi. by rewrite <- (Hout key v lo hi Ht).
    + unfold quality_alerts in Hin.
      destruct (poor_quality env); [|done]. by destruct Hin as [<-|[]].
  - intros (key & v & lo & hi & Hk & Hv & Ht & Ho & ->). split.
    + left. apply Hrange. exists key, v, lo, hi.
      by rewrite (Hout key v lo hi Ht).
    + cbv in Hk. destruct Hk as [<-|[<-|[<-|[<-|[]]]]]; discriminate.
Qed.

(** A guarded range check adds nothing or one alert, which names its
    metric. *)
Lemma range_alerts_cases (key unit_ : string) (env : gmap string float) :
  range_alerts key unit_ env = []
  \/ exists a, range_alerts key unit_ env = [a] /\ names_metric key a = true.
Proof.
  unfold range_alerts.
  destruct (env !! key) as [v|]; [|by left].
  destruct (TARGETS !! key) as [[lo hi]|]; [|by left].
  destruct (out_of_range key v); [|by left].
  right. eexists. split; [reflexivity|apply names_metric_own].
Qed.

(** The metrics named by what one range check adds: none, or its own. *)
Lemma range_alerts_keys (key unit_ : string) (env : gmap string float) :
  exists keys,
    sublist keys [key]
    /\ Forall2 (fun key a => names_metric key a = true) keys
         (range_alerts key unit_ env).
Proof.
  destruct (range_alerts_cases key unit_ env) as [->|(a & -> & Ha)].
  - exists []. split; [apply sublist_nil_l|constructor].
  - exists [key]. split; [reflexivity|by repeat constructor].
Qed.

(** X10. On the full path the range alerts come in the order of the checks:
    the metrics they name form a sub-sequence of temperature, humidity,
    light, substrate moisture, whatever the order of the snapshot's keys. *)
Theorem range_alerts_in_check_order (pred_class : string) (conf : float)
    (env : gmap string float) :
  (conf <? CONF_THRESHOLD)%float = false ->
  exists (severity : string) (keys range_part quality_part actions : list string),
    returned (recommend pred_class conf env)
    = Return (severity, range_part ++ quality_part, actions)
    /\ sublist keys tracked_metrics
    /\ Forall2 (fun key a => names_metric key a = true) keys range_part
    /\ (quality_part = [] \/ quality_part = [quality_alert]).
Proof.
  intros Hgate.
  assert (exists keys,
            sublist keys tracked_metrics
            /\ Forall2 (fun key a => names_metric key a = true) keys
                 (env_alerts env)) as (keys & Hsub & Hall).
  { unfold env_alerts.
    destruct (range_alerts_keys "temp_c" "°C" env) as (k1 & S1 & F1),
      (range_alerts_keys "humidity_rh" "%" env) as (k2 & S2 & F2),
      (range_alerts_keys "light_lux" " lux" env) as (k3 & S3 & F3),
      (range_alerts_keys "substrate_moisture_pct" "%" env)
        as (k4 & S4 & F4).
    exists (k1 ++ k2 ++ k3 ++ k4). split.
    - change tracked_metrics
        with (["temp_c"] ++ ["humidity_rh"] ++ ["light_lux"]
                ++ ["substrate_moisture_pct"]).
      by repeat apply sublist_app.
    - by repeat apply Forall2_app. }
  exists (severity_of pred_class), keys, (env_alerts env), (quality_alerts env).
  eexists. split; [by rewrite recommend_returns, Hgate|].
  split; [exact Hsub|]. split; [exact Hall|].
  unfold quality_alerts. destruct (poor_quality env); auto.
Qed.

(** X11. Every result carries at least two and at most four actions, and at
    most five alerts. *)
Theorem result_sizes (pred_class : string) (conf : float)
    (env : gmap string float) :
  exists (severity : string) (alerts actions : list string),
    returned (recommend pred_class conf env)
    = Return (severity, alerts, actions)
    /\ length alerts <= 5
    /\ 2 <= length actions <= 4.
Proof.
  eexists _, _, _. split; [apply recommend_returns|].
  destruct (conf <? CONF_THRESHOLD)%float; [cbn; lia|].
  unfold env_alerts, quality_alerts, quality_actions.
  rewrite !length_app.
  destruct (range_alerts_cases "temp_c" "°C" env) as [->|(a1 & -> & _)],
    (range_alerts_cases "humidity_rh" "%" env) as [->|(a2 & -> & _)],
    (range_alerts_cases "light_lux" " lux" env) as [->|(a3 & -> & _)],
    (range_alerts_cases "substrate_moisture_pct" "%" env)
      as [->|(a4 & -> & _)];
    destruct (poor_quality env), (branch_of pred_class); cbn; lia.
Qed.

(** ** Properties of the console session *)

Lemma io_bind_run {A B : Type} (c : io A) (k : A -> io B) (w : world) :
  (c ≫= k) w
  = match c w with
    | (Done a, w') => k a w'
    | (Failed e, w') => (Failed e, w')
    end.
Proof. reflexivity. Qed.

(** One question, by what the input holds. *)
Lemma get_float_run `{Builtins} (prompt : string) (w : world) :
  get_float prompt w
  = match stdin w with
    | [] => (Failed EOFError, World [] (stdout w ++ [prompt]) (log w))
    | line :: rest =>
        let w' := World rest (stdout w ++ [prompt]) (log w) in
        match read_answer line with
        | Skipped => (Done None, w')
        | Reading x => (Done (Some x), w')
        | Malformed s => (Failed (ValueError s), w')
        end
    end.
Proof.
  unfold get_float, read_answer. rewrite io_bind_run. unfold input.
  destruct (stdin w) as [|line rest]; [reflexivity|].
  cbv zeta. destruct (str_strip line =? "")%string; [reflexivity|].
  by destruct (float_of_str (str_strip line)).
Qed.

Lemma get_env_manual_collect `{Builtins} :
  get_env_manual = collect env_fields ∅.
Proof. reflexivity. Qed.

Lemma collect_cons `{Builtins} (prompt key : string)
    (fields : list (string * string)) (env : gmap string float) (w : world) :
  collect ((prompt, key) :: fields) env w
  = match get_float prompt w with
    | (Done v, w') => collect fields (store_reading key v env) w'
    | (Failed e, w') => (Failed e, w')
    end.
Proof. reflexivity. Qed.

(** Well-formed answers to all the questions: every question is asked,
    every answer consumed, and the snapshot is the one the answers fill. *)
Lemma collect_well_formed `{Builtins} (fields : list (string * string))
    (lines rest : list string) (env : gmap string float) (w : world) :
  length lines = length fields ->
  forallb well_formed lines = true ->
  stdin w = lines ++ rest ->
  collect fields env w
  = (Done (filled fields lines env),
     World rest (stdout w ++ map fst fields) (log w)).
Proof.
  revert lines env w.
  induction fields as [|[prompt key] fields IH]; intros lines env w Hlen Hwf Hin.
  - destruct lines; [|discriminate]. cbn in *. rewrite app_nil_r.
    destruct w; cbn in *. by subst.
  - destruct lines as [|line lines]; [discriminate|].
    cbn [forallb] in Hwf. apply andb_true_iff in Hwf as [Hline Hwf].
    rewrite collect_cons, get_float_run, Hin. cbn [app]. cbv zeta.
    unfold well_formed in Hline.
    destruct (read_answer line) as [|x|s] eqn:Hans; [| |discriminate];
      (rewrite (IH lines) by (cbn in *; (lia || done));
       cbn [filled map fst stdout log]; rewrite Hans;
       by rewrite <- app_assoc).
Qed.

(** A malformed answer stops the questions there. *)
Lemma collect_malformed `{Builtins} (fields : list (string * string))
    (good rest : list string) (bad text : string)
    (env : gmap string float) (w : world) :
  length good < length fields ->
  forallb well_formed good = true ->
  read_answer bad = Malformed text ->
  stdin w = good ++ bad :: rest ->
  collect fields env w
  = (Failed (ValueError text),
     World rest (stdout w ++ take (S (length good)) (map fst fields)) (log w)).
Proof.
  revert good env w.
  induction fields as [|[prompt key] fields IH]; intros good env w Hlen Hwf Hbad Hin.
  - cbn in Hlen. lia.
  - rewrite collect_cons, get_float_run, Hin.
    destruct good as [|line good]; cbn [app]; cbv zeta.
    + rewrite Hbad. reflexivity.
    + cbn [forallb] in Hwf. apply andb_true_iff in Hwf as [Hline Hwf].
      unfold well_formed in Hline.
      destruct (read_answer line) as [|x|s] eqn:Hans; [| |discriminate];
        (rewrite (IH good) by (cbn in *; (lia || done));
         cbn [map fst stdout log length take];
         by rewrite <- app_assoc).
Qed.

(** The input running out stops the questions with [EOFError], the next
    prompt already written. *)
Lemma collect_eof `{Builtins} (fields : list (string * string))
    (good : list string) (env : gmap string float) (w : world) :
  length good < length fields ->
  forallb well_formed good = true ->
  stdin w = good ->
  collect fields env w
  = (Failed EOFError,
     World [] (stdout w ++ take (S (length good)) (map fst fields)) (log w)).
Proof.
  revert good env w.
  induction fields as [|[prompt key] fields IH]; intros good env w Hlen Hwf Hin.
  - cbn in Hlen. lia.
  - rewrite collect_cons, get_float_run, Hin.
    destruct good as [|line good]; cbv zeta.
    + reflexivity.
    + cbn [forallb] in Hwf. apply andb_true_iff in Hwf as [Hline Hwf].
      unfold well_formed in Hline.
      destruct (read_answer line) as [|x|s] eqn:Hans; [| |discriminate];
        (rewrite (IH good) by (cbn in *; (lia || done));
         cbn [map fst stdout log length take];
         by rewrite <- app_assoc).
Qed.

Lemma store_reading_lookup (key key' : string) (v : option float)
    (env : gmap string float) :
  store_reading key v env !! key'
  = if decide (key = key')
    then match v with Some x => Some x | None => env !! key' end
    else env !! key'.
Proof.
  unfold store_reading. destruct v as [x|].
  - rewrite lookup_insert. by repeat case_decide.
  - by case_decide.
Qed.

(** X12. Five well-formed answers: every question is asked in order, exactly
    five lines are consumed, the log is left alone, and the snapshot holds
    each number under its key, leaves out every blank answer and holds no
    other key. *)
Theorem get_env_manual_collects `{Builtins} (w : world)
    (l1 l2 l3 l4 l5 : string) (rest : list string) :
  stdin w = l1 :: l2 :: l3 :: l4 :: l5 :: rest ->
  forallb well_formed [l1; l2; l3; l4; l5] = true ->
  exists env : gmap string float,
    get_env_manual w
    = (Done env, World rest (stdout w ++ env_prompts) (log w))
    /\ env !! "temp_c" = answer_value (read_answer l1)
    /\ env !! "humidity_rh" = answer_value (read_answer l2)
    /\ env !! "light_lux" = answer_value (read_answer l3)
    /\ env !! "substrate_moisture_pct" = answer_value (read_answer l4)
    /\ env !! "substrate_quality_score" = answer_value (read_answer l5)
    /\ forall key, ~ In key recognized_keys -> env !! key = None.
Proof.
  intros Hin Hwf. exists (filled env_fields [l1; l2; l3; l4; l5] ∅).
  split.
  { rewrite get_env_manual_collect.
    by apply (collect_well_formed env_fields [l1; l2; l3; l4; l5] rest). }
  cbn [filled env_fields].
  repeat split; rewrite ?store_reading_lookup;
    repeat (case_decide; try discriminate; try done);
    try (by destruct (answer_value _)).
  intros key Hkey. rewrite !store_reading_lookup.
  repeat case_decide; subst;
    try (exfalso; apply Hkey; cbv; tauto).
  apply lookup_empty.
Qed.

(** X13. The first malformed answer ends the collection with [ValueError]
    on that answer: the questions after it are not asked and the lines after
    it are not consumed. *)
Theorem get_env_manual_value_error `{Builtins} (w : world)
    (good rest : list string) (bad text : string) :
  length good < 5 ->
  forallb well_formed good = true ->
  read_answer bad = Malformed text ->
  stdin w = good ++ bad :: rest ->
  get_env_manual w
  = (Failed (ValueError text),
     World rest (stdout w ++ take (S (length good)) env_prompts) (log w)).
Proof.
  intros Hlen Hwf Hbad Hin. rewrite get_env_manual_collect.
  by apply (collect_malformed env_fields good rest bad text).
Qed.

(** X14. With fewer than five lines of input, all well-formed, the collection
    ends with [EOFError] after writing the prompt of the first question left
    without an answer. *)
Theorem get_env_manual_eof `{Builtins} (w : world) (good : list string) :
  length good < 5 ->
  forallb well_formed good = true ->
  stdin w = good ->
  get_env_manual w
  = (Failed EOFError,
     World [] (stdout w ++ take (S (length good)) env_prompts) (log w)).
Proof.
  intros Hlen Hwf Hin. rewrite get_env_manual_collect.
  by apply collect_eof.
Qed.

(** What a run of questions can do to the world, however it ends. *)
Lemma collect_frame `{Builtins} (fields : list (string * string))
    (env : gmap string float) (w : world) :
  exists (r : session_result (gmap string float)) (w' : world) (n m : nat),
    collect fields env w = (r, w')
    /\ log w' = log w
    /\ stdin w' = drop n (stdin w)
    /\ stdout w' = stdout w ++ take m (map fst fields)
    /\ n <= m <= length fields
    /\ match r with
       | Done env' =>
           n = length fields /\ m = length fields
           /\ forall key, is_Some (env' !! key) ->
                is_Some (env !! key) \/ In key (map snd fields)
       | Failed EOFError => m = S n /\ length (stdin w) = n
       | Failed (ValueError _) => m = n /\ 1 <= n
       | Failed _ => False
       end.
Proof.
  revert env w. induction fields as [|[prompt key] fields IH]; intros env w.
  { exists (Done env), w, 0, 0. cbn. rewrite app_nil_r.
    repeat split; auto. }
  rewrite collect_cons, get_float_run.
  destruct (stdin w) as [|line rest] eqn:Hin.
  { eexists _, _, 0, 1. split; [reflexivity|]. cbn. repeat split; lia. }
  cbv zeta.
  assert (forall v,
    exists r w' n m,
      collect fields (store_reading key v env)
        (World rest (stdout w ++ [prompt]) (log w)) = (r, w')
      /\ log w' = log w
      /\ stdin w' = drop n (line :: rest)
      /\ stdout w' = stdout w ++ take m (map fst ((prompt, key) :: fields))
      /\ n <= m <= length ((prompt, key) :: fields)
      /\ match r with
         | Done env' =>
             n = length ((prompt, key) :: fields)
             /\ m = length ((prompt, key) :: fields)
             /\ forall key', is_Some (env' !! key') ->
                  is_Some (env !! key')
                  \/ In key' (map snd ((prompt, key) :: fields))
         | Failed EOFError => m = S n /\ length (line :: rest) = n
         | Failed (ValueError _) => m = n /\ 1 <= n
         | Failed _ => False
         end) as Hstep.
  { intros v.
    destruct (IH (store_reading key v env)
                (World rest (stdout w ++ [prompt]) (log w)))
      as (r & w' & n & m & Hrun & Hlog & Hstdin & Hstdout & Hnm & Hr).
    exists r, w', (S n), (S m). cbn [stdin stdout log] in *.
    split; [exact Hrun|]. split; [exact Hlog|]. split; [exact Hstdin|].
    split; [by rewrite Hstdout, <- app_assoc|].
    split; [cbn; lia|].
    destruct r as [env'|[ |text|id| |e]]; cbn [length map snd In] in *;
      try done; try lia.
    destruct Hr as (-> & -> & Hkeys). split; [reflexivity|].
    split; [reflexivity|]. intros key' Hsome.
    destruct (Hkeys key' Hsome) as [Hold|Hnew]; [|auto].
    rewrite store_reading_lookup in Hold.
    case_decide; [auto|]. by left. }
  destruct (read_answer line) as [|x|text].
  - apply Hstep.
  - apply Hstep.
  - eexists _, _, 1, 1. split; [reflexivity|]. cbn. repeat split; lia.
Qed.

(** X15. However the collection ends, it leaves the log alone, consumes only
    a prefix of the input of at most five lines, and writes only its prompts,
    in order; when it returns a snapshot it has consumed exactly five lines
    and the snapshot holds no key but the five the engine knows. *)
Theorem get_env_manual_frame `{Builtins} (w : world) :
  exists (r : session_result (gmap string float)) (w' : world) (n m : nat),
    get_env_manual w = (r, w')
    /\ log w' = log w
    /\ stdin w' = drop n (stdin w)
    /\ stdout w' = stdout w ++ take m env_prompts
    /\ n <= m <= 5
    /\ match r with
       | Done env =>
           n = 5 /\ m = 5
           /\ forall key, is_Some (env !! key) -> In key recognized_keys
       | Failed EOFError => m = S n /\ length (stdin w) = n
       | Failed (ValueError _) => m = n /\ 1 <= n
       | Failed _ => False
       end.
Proof.
  destruct (collect_frame env_fields ∅ w)
    as (r & w' & n & m & Hrun & Hlog & Hstdin & Hstdout & Hnm & Hr).
  exists r, w', n, m. rewrite get_env_manual_collect.
  split; [exact Hrun|]. split; [exact Hlog|]. split; [exact Hstdin|].
  split; [exact Hstdout|]. split; [exact Hnm|].
  destruct r as [env|[ |text|id| |e]]; try exact Hr.
  destruct Hr as (-> & -> & Hkeys). split; [reflexivity|].
  split; [reflexivity|]. intros key Hsome.
  destruct (Hkeys key Hsome) as [Hempty|Hin]; [|exact Hin].
  rewrite lookup_empty in Hempty. by destruct Hempty.
Qed.

(** The call from [main] always comes back, with the engine's triple and
    the dictionary as it was passed. *)
Lemma call_recommend_run (pred_class : string) (conf : float)
    (env : gmap string float) (w : world) :
  exists (severity : string) (alerts actions : list string),
    returned (recommend pred_class conf env)
    = Return (severity, alerts, actions)
    /\ call_recommend pred_class conf env w
       = (Done (severity, alerts, actions, env), w).
Proof.
  unfold call_recommend, returned.
  on_either_path conf; by eexists _, _, _.
Qed.

(** X16. A missing image ends the session at once and normally: the message
    is printed, no environment question is asked, no further line is
    consumed and nothing is logged. *)
Theorem main_missing_image `{Builtins} `{Services} (w : world)
    (model : yolo) (line : string) (rest : list string) :
  YOLO MODEL_PATH = Some model ->
  stdin w = line :: rest ->
  path_exists (image_path line) = false ->
  main w
  = (Done tt,
     World rest
       (stdout w ++ ["Path to image: "; "Image path not found." +:+ nl])
       (log w)).
Proof.
  intros Hmodel Hin Hmissing. unfold main.
  rewrite Hmodel. cbn [from_library]. rewrite io_bind_run. cbn [mret io_ret].
  rewrite io_bind_run. unfold input. rewrite Hin.
  fold (image_path line). rewrite Hmissing. cbn [negb].
  unfold print. cbn [stdin stdout log]. by rewrite <- app_assoc.
Qed.

(** The run of a session that goes through, step by step. *)
Lemma session_run `{Builtins} `{Services} (w : world)
    (model : yolo) (line l1 l2 l3 l4 l5 : string) (rest : list string)
    (r : prediction) (pred_class : string) :
  YOLO MODEL_PATH = Some model ->
  stdin w = line :: l1 :: l2 :: l3 :: l4 :: l5 :: rest ->
  path_exists (image_path line) = true ->
  forallb well_formed [l1; l2; l3; l4; l5] = true ->
  predict model (path_str (image_path line)) = Some r ->
  names model !! top1 r = Some pred_class ->
  exists (env : gmap string float) (severity : string)
         (alerts actions : list string) (record : result),
    env = filled env_fields [l1; l2; l3; l4; l5] ∅
    /\ returned (recommend pred_class (top1conf r) env)
       = Return (severity, alerts, actions)
    /\ record
       = Result now_isoformat (path_str (image_path line)) pred_class
           (round_digits (top1conf r) 4) severity env alerts actions
    /\ main w
       = (Done tt,
          World rest
            (stdout w ++ ["Path to image: "] ++ env_prompts
               ++ [ nl +:+ "=== KabuTech Result ===" +:+ nl;
                    json_dumps (Some 2) record +:+ nl;
                    nl +:+ "Logged to: "
                       +:+ path_resolve "kabutech_log.jsonl" +:+ nl ])
            (log w +:+ json_dumps None record +:+ nl)).
Proof.
  intros Hmodel Hin Hexists Hwf Hpredict Hname.
  set (env := filled env_fields [l1; l2; l3; l4; l5] ∅).
  destruct (call_recommend_run pred_class (top1conf r) env
              (World rest (stdout w ++ ["Path to image: "] ++ env_prompts)
                 (log w)))
    as (severity & alerts & actions & Hret & Hcall).
  eexists env, severity, alerts, actions, _.
  split; [reflexivity|]. split; [exact Hret|]. split; [reflexivity|].
  unfold main. rewrite Hmodel. cbn [from_library].
  rewrite io_bind_run. cbn [mret io_ret].
  rewrite io_bind_run. unfold input. rewrite Hin.
  fold (image_path line). rewrite Hexists. cbn [negb].
  rewrite io_bind_run, get_env_manual_collect.
  rewrite (collect_well_formed env_fields [l1; l2; l3; l4; l5] rest)
    by done.
  fold env. cbn [stdin stdout log]. rewrite Hpredict. cbn [from_library].
  rewrite io_bind_run. cbn [mret io_ret]. rewrite Hname.
  rewrite io_bind_run. cbn [mret io_ret]. rewrite io_bind_run.
  fold env_prompts. rewrite <- app_assoc. rewrite Hcall.
  unfold print, append_log. rewrite !io_bind_run.
  cbn [stdin stdout log]. rewrite <- !app_assoc.
  reflexivity.
Qed.

(** X17. A session that goes through: with the model loaded, an image that
    exists, five well-formed answers and a classification whose id has a
    name, [main] consumes those six lines, appends exactly one record and a
    newline to the log, after what the log held, and prints the record.  The
    record carries the engine's verdict on the classification and the
    collected snapshot, and reports that snapshot as collected. *)
Theorem main_logs_one_record `{Builtins} `{Services} (w : world)
    (model : yolo) (line l1 l2 l3 l4 l5 : string) (rest : list string)
    (r : prediction) (pred_class : string) :
  YOLO MODEL_PATH = Some model ->
  stdin w = line :: l1 :: l2 :: l3 :: l4 :: l5 :: rest ->
  path_exists (image_path line) = true ->
  forallb well_formed [l1; l2; l3; l4; l5] = true ->
  predict model (path_str (image_path line)) = Some r ->
  names model !! top1 r = Some pred_class ->
  exists (env : gmap string float) (severity : string)
         (alerts actions : list string) (record : result),
    env = filled env_fields [l1; l2; l3; l4; l5] ∅
    /\ returned (recommend pred_class (top1conf r) env)
       = Return (severity, alerts, actions)
    /\ record
       = Result now_isoformat (path_str (image_path line)) pred_class
           (round_digits (top1conf r) 4) severity env alerts actions
    /\ main w
       = (Done tt,
          World rest
            (stdout w ++ ["Path to image: "] ++ env_prompts
               ++ [ nl +:+ "=== KabuTech Result ===" +:+ nl;
                    json_dumps (Some 2) record +:+ nl;
                    nl +:+ "Logged to: "
                       +:+ path_resolve "kabutech_log.jsonl" +:+ nl ])
            (log w +:+ json_dumps None record +:+ nl)).
Proof.
  intros Hmodel Hin Hexists Hwf Hpredict Hname.
  exact (session_run w model line l1 l2 l3 l4 l5 rest r pred_class
           Hmodel Hin Hexists Hwf Hpredict Hname).
Qed.


(** What five answers fill in, key by key. *)
Lemma filled_env_fields `{Builtins} (l1 l2 l3 l4 l5 : string) (i : nat)
    (key line : string) :
  recognized_keys !! i = Some key ->
  [l1; l2; l3; l4; l5] !! i = Some line ->
  filled env_fields [l1; l2; l3; l4; l5] ∅ !! key
  = answer_value (read_answer line).
Proof.
  intros Hkey Hline. cbn [filled env_fields].
  do 5 (destruct i as [|i];
        [cbn in Hkey, Hline; injection Hkey as <-; injection Hline as <-;
         rewrite !store_reading_lookup;
         repeat (case_decide; try discriminate; try done);
         by destruct (answer_value _)|]).
  discriminate.
Qed.

(** X19. From the answer to the record: in a session that goes through, the
    logged record holds an alert naming a tracked metric exactly when the
    classification passes the gate and the answer given for that metric is a
    number outside its band; a blank answer never brings one. *)
Theorem session_alert_for_answer `{Builtins} `{Services} (w : world)
    (model : yolo) (line l1 l2 l3 l4 l5 : string) (rest : list string)
    (r : prediction) (pred_class : string)
    (i : nat) (key answer_line : string) :
  YOLO MODEL_PATH = Some model ->
  stdin w = line :: l1 :: l2 :: l3 :: l4 :: l5 :: rest ->
  path_exists (image_path line) = true ->
  forallb well_formed [l1; l2; l3; l4; l5] = true ->
  predict model (path_str (image_path line)) = Some r ->
  names model !! top1 r = Some pred_class ->
  tracked_metrics !! i = Some key ->
  [l1; l2; l3; l4; l5] !! i = Some answer_line ->
  exists record : result,
    log (snd (main w)) = log w +:+ json_dumps None record +:+ nl
    /\ (alerts_naming key (r_alerts record) = 1
        <-> (top1conf r <? CONF_THRESHOLD)%float = false
            /\ exists v, read_answer answer_line = Reading v
                         /\ out_of_range key v = true)
    /\ (read_answer answer_line = Skipped ->
        alerts_naming key (r_alerts record) = 0).
Proof.
  intros Hmodel Hin Hexists Hwf Hpredict Hname Hkey Hline.
  destruct (session_run w model line l1 l2 l3 l4 l5 rest r pred_class
              Hmodel Hin Hexists Hwf Hpredict Hname)
    as (env & severity & alerts & actions & record & Henv & Hret & Hrecord
        & Hrun).
  exists record. split; [by rewrite Hrun|].
  assert (In key tracked_metrics) as Htracked.
  { apply list_elem_of_In. by eapply list_elem_of_lookup_2. }
  assert (env !! key = answer_value (read_answer answer_line)) as Hlookup.
  { rewrite Henv. apply (filled_env_fields l1 l2 l3 l4 l5 i); [|done].
    unfold recognized_keys. by apply lookup_app_l_Some. }
  rewrite Hrecord. cbn [r_alerts].
  rewrite recommend_returns in Hret. injection Hret as _ <- _.
  destruct (top1conf r <? CONF_THRESHOLD)%float.
  { split.
    - split; [|by intros [? _]].
      cbv in Htracked.
      destruct Htracked as [<-|[<-|[<-|[<-|[]]]]]; discriminate.
    - intros _. cbv in Htracked.
      destruct Htracked as [<-|[<-|[<-|[<-|[]]]]]; reflexivity. }
  rewrite alerts_naming_full_path, Hlookup by done.
  destruct (read_answer answer_line) as [|v|text]; cbn [answer_value].
  - split; [|done]. split; [discriminate|]. by intros [_ (v & [=] & _)].
  - split; [|discriminate].
    destruct (out_of_range key v) eqn:Hout.
    + split; [eauto|done].
    + split; [discriminate|]. intros [_ (v' & [= <-] & Hout')]. congruence.
  - split; [|discriminate]. split; [discriminate|].
    by intros [_ (v & [=] & _)].
Qed.

(** ** The further properties at concrete inputs *)

(** Green molds at confidence 0.95: the first action opens with the
    severity returned. *)
Lemma first_action_matches_severity_witness :
  (0.95 <? CONF_THRESHOLD)%float = false
  /\ exists (severity first : string) (alerts rest : list string),
       returned (recommend "green_molds_disease" 0.95 ∅)
       = Return (severity, alerts, first :: rest)
       /\ (severity = "high" <-> String.prefix "HIGH severity" first = true).
Proof.
  split; [reflexivity|].
  destruct (first_action_matches_severity "green_molds_disease" 0.95%float ∅
              eq_refl)
    as (severity & first & alerts & rest & Hret & Hhigh & _).
  exists severity, first, alerts, rest. split; [exact Hret|exact Hhigh].
Defined.

(** A hot chamber with poor substrate and the poor substrate alone call
    for the same actions. *)
Lemma actions_ignore_readings_witness :
  ({[ "temp_c" := 35.0%float; "substrate_quality_score" := 0.4%float ]}
     : gmap string float) !! "substrate_quality_score"
  = ({[ "substrate_quality_score" := 0.4%float ]} : gmap string float)
      !! "substrate_quality_score"
  /\ exists (severity : string) (alerts1 alerts2 actions : list string),
       returned
         (recommend "dry_bubble_disease" 0.9
            {[ "temp_c" := 35.0%float; "substrate_quality_score" := 0.4%float ]})
       = Return (severity, alerts1, actions)
       /\ returned
            (recommend "dry_bubble_disease" 0.9
               {[ "substrate_quality_score" := 0.4%float ]})
          = Return (severity, alerts2, actions).
Proof.
  split; [reflexivity|].
  apply (actions_ignore_readings "dry_bubble_disease" 0.9%float
           {[ "temp_c" := 35.0%float; "substrate_quality_score" := 0.4%float ]}
           {[ "substrate_quality_score" := 0.4%float ]}).
  reflexivity.
Defined.

(** The threshold itself and 0.99 give the same result. *)
Lemma passing_confidence_irrelevant_witness :
  (CONF_THRESHOLD <? CONF_THRESHOLD)%float = false
  /\ (0.99 <? CONF_THRESHOLD)%float = false
  /\ returned
       (recommend "bacterial_blotch_disease" CONF_THRESHOLD
          {[ "temp_c" := 35.0%float ]})
     = returned
         (recommend "bacterial_blotch_disease" 0.99
            {[ "temp_c" := 35.0%float ]}).
Proof.
  split; [reflexivity|]. split; [reflexivity|].
  apply (passing_confidence_irrelevant "bacterial_blotch_disease"
           CONF_THRESHOLD 0.99%float {[ "temp_c" := 35.0%float ]});
    reflexivity.
Defined.

(** A NaN confidence. *)
Lemma nan_confidence_passes_gate_witness :
  is_nan nan = true
  /\ returned (recommend "healthy_mushroom" nan {[ "temp_c" := 35.0%float ]})
     = returned (recommend "healthy_mushroom" 1 {[ "temp_c" := 35.0%float ]}).
Proof.
  split; [reflexivity|].
  apply (nan_confidence_passes_gate "healthy_mushroom" nan
           {[ "temp_c" := 35.0%float ]}).
  reflexivity.
Defined.

(** A NaN temperature. *)
Lemma nan_reading_raises_no_alert_witness :
  is_nan nan = true
  /\ ({[ "temp_c" := nan ]} : gmap string float) !! "temp_c" = Some nan
  /\ exists (severity : string) (alerts actions : list string),
       returned (recommend "healthy_mushroom" 0.9 {[ "temp_c" := nan ]})
       = Return (severity, alerts, actions)
       /\ alerts_naming "temp_c" alerts = 0.
Proof.
  assert (({[ "temp_c" := nan ]} : gmap string float) !! "temp_c" = Some nan)
    as Hreading by reflexivity.
  split; [reflexivity|]. split; [exact Hreading|].
  destruct (nan_reading_raises_no_alert "healthy_mushroom" 0.9%float
              {[ "temp_c" := nan ]} "temp_c" nan eq_refl Hreading)
    as (severity & alerts & actions & Hret & Hnone & _).
  exists severity, alerts, actions. split; [exact Hret|].
  apply Hnone. left. reflexivity.
Defined.

(** Bacterial blotch at confidence 0.80 with a temperature of 35 degrees:
    the alert carries the reading and the band. *)
Lemma range_alert_texts_witness :
  (0.80 <? CONF_THRESHOLD)%float = false
  /\ exists (severity : string) (alerts actions : list string),
       returned
         (recommend "bacterial_blotch_disease" 0.80
            {[ "temp_c" := 35.0%float; "substrate_quality_score" := 0.4%float ]})
       = Return (severity, alerts, actions)
       /\ In "temp_c out of range: 35.0°C (target 20.0-28.0°C)" alerts.
Proof.
  split; [reflexivity|].
  destruct (range_alert_texts "bacterial_blotch_disease" 0.80%float
              {[ "temp_c" := 35.0%float; "substrate_quality_score" := 0.4%float ]}
              eq_refl)
    as (severity & alerts & actions & Hret & Htexts).
  exists severity, alerts, actions. split; [exact Hret|].
  apply (Htexts "temp_c out of range: 35.0°C (target 20.0-28.0°C)").
  exists "temp_c", 35.0%float, 20.0%float, 28.0%float.
  split; [left; reflexivity|]. split; [reflexivity|]. split; [reflexivity|].
  split; [right; reflexivity|]. vm_compute. reflexivity.
Defined.

(** Humidity and temperature both out of range: the temperature alert
    comes first. *)
Lemma range_alerts_in_check_order_witness :
  (0.80 <? CONF_THRESHOLD)%float = false
  /\ exists (severity : string)
            (keys range_part quality_part actions : list string),
       returned
         (recommend "healthy_mushroom" 0.80
            {[ "humidity_rh" := 40.0%float; "temp_c" := 35.0%float ]})
       = Return (severity, range_part ++ quality_part, actions)
       /\ sublist keys tracked_metrics
       /\ Forall2 (fun key a => names_metric key a = true) keys range_part.
Proof.
  split; [reflexivity|].
  destruct (range_alerts_in_check_order "healthy_mushroom" 0.80%float
              {[ "humidity_rh" := 40.0%float; "temp_c" := 35.0%float ]}
              eq_refl)
    as (severity & keys & range_part & quality_part & actions & Hret & Hsub
        & Hall & _).
  exists severity, keys, range_part, quality_part, actions.
  split; [exact Hret|]. split; [exact Hsub|exact Hall].
Defined.

(** Five answers, two of them blank, on the test double. *)
Lemma get_env_manual_collects_witness :
  stdin (World ["35"; ""; " "; "60"; "0.4"; "more"] [] "old")
  = ["35"; ""; " "; "60"; "0.4"; "more"]
  /\ forallb well_formed ["35"; ""; " "; "60"; "0.4"] = true
  /\ exists env : gmap string float,
       get_env_manual (World ["35"; ""; " "; "60"; "0.4"; "more"] [] "old")
       = (Done env, World ["more"] ([] ++ env_prompts) "old")
       /\ env !! "temp_c" = Some 35.0%float
       /\ env !! "humidity_rh" = None.
Proof.
  assert (forallb well_formed ["35"; ""; " "; "60"; "0.4"] = true) as Hwf
    by (vm_compute; reflexivity).
  split; [reflexivity|]. split; [exact Hwf|].
  destruct (get_env_manual_collects
              (World ["35"; ""; " "; "60"; "0.4"; "more"] [] "old")
              "35" "" " " "60" "0.4" ["more"] eq_refl Hwf)
    as (env & Hrun & Htemp & Hhum & _).
  exists env. split; [exact Hrun|]. split; [exact Htemp|exact Hhum].
Defined.

(** A malformed second answer. *)
Lemma get_env_manual_value_error_witness :
  length ["35"] < 5
  /\ forallb well_formed ["35"] = true
  /\ read_answer "x1" = Malformed "x1"
  /\ get_env_manual (World (["35"] ++ "x1" :: ["60"; "0.4"]) [] "old")
     = (Failed (ValueError "x1"),
        World ["60"; "0.4"] ([] ++ take 2 env_prompts) "old").
Proof.
  assert (length ["35"] < 5) as Hlen by (cbn; lia).
  assert (forallb well_formed ["35"] = true) as Hwf
    by (vm_compute; reflexivity).
  assert (read_answer "x1" = Malformed "x1") as Hbad
    by (vm_compute; reflexivity).
  split; [exact Hlen|]. split; [exact Hwf|]. split; [exact Hbad|].
  apply (get_env_manual_value_error
           (World (["35"] ++ "x1" :: ["60"; "0.4"]) [] "old")
           ["35"] ["60"; "0.4"] "x1" "x1" Hlen Hwf Hbad eq_refl).
Defined.

(** The input ends after two answers. *)
Lemma get_env_manual_eof_witness :
  length ["35"; ""] < 5
  /\ forallb well_formed ["35"; ""] = true
  /\ get_env_manual (World ["35"; ""] [] "old")
     = (Failed EOFError, World [] ([] ++ take 3 env_prompts) "old").
Proof.
  assert (length ["35"; ""] < 5) as Hlen by (cbn; lia).
  assert (forallb well_formed ["35"; ""] = true) as Hwf
    by (vm_compute; reflexivity).
  split; [exact Hlen|]. split; [exact Hwf|].
  apply (get_env_manual_eof (World ["35"; ""] [] "old") ["35"; ""]
           Hlen Hwf eq_refl).
Defined.

(** An image the file system does not hold. *)
Lemma main_missing_image_witness :
  YOLO MODEL_PATH = Some tt
  /\ path_exists (image_path "nothere.jpg") = false
  /\ main (World ["nothere.jpg"; "35"] [] "old")
     = (Done tt,
        World ["35"]
          ([] ++ ["Path to image: "; "Image path not found." +:+ nl])
          "old").
Proof.
  assert (path_exists (image_path "nothere.jpg") = false) as Hmissing
    by (vm_compute; reflexivity).
  split; [reflexivity|]. split; [exact Hmissing|].
  apply (@main_missing_image plain_builtins stub_services
           (World ["nothere.jpg"; "35"] [] "old") tt
           "nothere.jpg" ["35"] eq_refl eq_refl Hmissing).
Defined.

(** A whole session on the test double: one record lands in the log after
    what was there. *)
Lemma main_logs_one_record_witness :
  YOLO MODEL_PATH = Some tt
  /\ path_exists (image_path "bag.jpg") = true
  /\ forallb well_formed ["35"; ""; " "; "60"; "0.4"] = true
  /\ exists record : result,
       snd (main (World ["bag.jpg"; "35"; ""; " "; "60"; "0.4"; "more"] [] "old"))
       = World ["more"]
           ([] ++ ["Path to image: "] ++ env_prompts
              ++ [ nl +:+ "=== KabuTech Result ===" +:+ nl;
                   json_dumps (Some 2) record +:+ nl;
                   nl +:+ "Logged to: "
                      +:+ path_resolve "kabutech_log.jsonl" +:+ nl ])
           ("old" +:+ json_dumps None record +:+ nl)
       /\ r_severity record = "high".
Proof.
  assert (path_exists (image_path "bag.jpg") = true) as Hexists
    by (vm_compute; reflexivity).
  assert (forallb well_formed ["35"; ""; " "; "60"; "0.4"] = true) as Hwf
    by (vm_compute; reflexivity).
  assert (names tt !! top1 (Prediction 2 0.95) = Some "green_molds_disease")
    as Hname by (vm_compute; reflexivity).
  split; [reflexivity|]. split; [exact Hexists|]. split; [exact Hwf|].
  destruct (@main_logs_one_record plain_builtins stub_services
              (World ["bag.jpg"; "35"; ""; " "; "60"; "0.4"; "more"] [] "old")
              tt "bag.jpg" "35" "" " " "60" "0.4" ["more"]
              (Prediction 2 0.95) "green_molds_disease"
              eq_refl eq_refl Hexists Hwf eq_refl Hname)
    as (env & severity & alerts & actions & record & Henv & Hret & Hrecord
        & Hrun).
  exists record. split; [by rewrite Hrun|].
  rewrite Hrecord. cbn [r_severity].
  unfold returned in Hret. rewrite recommend_high in Hret by reflexivity.
  cbn [fst] in Hret. injection Hret as <- _ _. reflexivity.
Defined.

(** The session on the test double: a temperature of 35 brings the
    temperature alert into the record. *)
Lemma session_alert_for_answer_witness :
  YOLO MODEL_PATH = Some tt
  /\ path_exists (image_path "bag.jpg") = true
  /\ forallb well_formed ["35"; ""; " "; "60"; "0.4"] = true
  /\ tracked_metrics !! 0 = Some "temp_c"
  /\ exists record : result,
       log (snd (main (World ["bag.jpg"; "35"; ""; " "; "60"; "0.4"] [] "old")))
       = "old" +:+ json_dumps None record +:+ nl
       /\ alerts_naming "temp_c" (r_alerts record) = 1.
Proof.
  assert (path_exists (image_path "bag.jpg") = true) as Hexists
    by (vm_compute; reflexivity).
  assert (forallb well_formed ["35"; ""; " "; "60"; "0.4"] = true) as Hwf
    by (vm_compute; reflexivity).
  assert (names tt !! top1 (Prediction 2 0.95) = Some "green_molds_disease")
    as Hname by (vm_compute; reflexivity).
  split; [reflexivity|]. split; [exact Hexists|]. split; [exact Hwf|].
  split; [reflexivity|].
  destruct (@session_alert_for_answer plain_builtins stub_services
              (World ["bag.jpg"; "35"; ""; " "; "60"; "0.4"] [] "old")
              tt "bag.jpg" "35" "" " " "60" "0.4" []
              (Prediction 2 0.95) "green_molds_disease" 0 "temp_c" "35"
              eq_refl eq_refl Hexists Hwf eq_refl Hname eq_refl eq_refl)
    as (record & Hlog & Hone & _).
  exists record. split; [exact Hlog|]. apply Hone.
  split; [reflexivity|]. exists 35%float.
  split; vm_compute; reflexivity.
Defined.
